(** * puqee: the LLM gateway ([orchestration/llm_gateway.py])

    A shallow embedding of the gateway's provider selection, its retry
    loop with linear backoff, the Claude request payload, the mock
    provider and the credential masking of [get_provider_info], together
    with the properties the specification states about them; then the
    rest of the gateway (the other request formats, registration, the life
    cycle, the factory) and its caller, the chatbot agent with its
    conversation manager, with properties read off the code. *)

From Stdlib Require Import Ascii String QArith.
From stdpp Require Import gmap strings list fin_maps pretty.

Local Set Warnings "-register-all".
Open Scope string_scope.
Open Scope Z_scope.
Open Scope list_scope.

(** ** Python values

    The dynamically typed values that occur in provider configurations,
    keyword options and JSON payloads. *)

Inductive pyval : Type :=
| VNone : pyval
| VBool : bool -> pyval
| VInt : Z -> pyval
| VFloat : Q -> pyval
| VStr : string -> pyval
| VList : list pyval -> pyval
| VDict : gmap string pyval -> pyval.

(** Python truthiness of a value of [str] type, as tested by [if s:]. *)
Definition str_truthy (s : string) : bool :=
  match s with
  | EmptyString => false
  | String _ _ => true
  end.

(** ** Strings: [str.lower] and the substring test [needle in hay]

    Strings are byte strings (UTF-8), and [lower] reads them one code
    point at a time.  [str.lower] maps the ASCII capitals to their small
    letters, and two code points outside ASCII to ASCII letters: U+212A,
    the Kelvin sign (bytes 226 132 170), to [k], and U+0130, the capital I
    with a dot above (bytes 196 176), to [i] followed by U+0307 (bytes 204
    135).  [lower] does the three.  Every other code point outside ASCII
    is lowered by [str.lower] to code points outside ASCII again and is
    left as it is here, so that [lower] and [str.lower] agree on the ASCII
    characters of the result and on the CJK text the code looks for. *)

Definition lower_ascii (c : ascii) : ascii :=
  let n := N_of_ascii c in
  if ((65 <=? n) && (n <=? 90))%N then ascii_of_N (n + 32) else c.

Definition is_idot (c1 c2 : ascii) : bool :=
  ((N_of_ascii c1 =? 196) && (N_of_ascii c2 =? 176))%N.

Definition is_kelvin (c1 c2 c3 : ascii) : bool :=
  ((N_of_ascii c1 =? 226) && (N_of_ascii c2 =? 132)
   && (N_of_ascii c3 =? 170))%N.

Fixpoint lower (s : string) : string :=
  match s with
  | EmptyString => EmptyString
  | String c1 r1 =>
      match r1 with
      | EmptyString => String (lower_ascii c1) EmptyString
      | String c2 r2 =>
          if is_idot c1 c2
          then String "i" (String "204" (String "135" (lower r2)))
          else
            match r2 with
            | EmptyString => String (lower_ascii c1) (lower r1)
            | String c3 r3 =>
                if is_kelvin c1 c2 c3
                then String "k" (lower r3)
                else String (lower_ascii c1) (lower r1)
            end
      end
  end.

Fixpoint py_in (needle hay : string) : bool :=
  String.prefix needle hay ||
  match hay with
  | EmptyString => false
  | String _ hay' => py_in needle hay'
  end.

(** ** Messages, responses and exceptions *)

Record LLMMessage : Type := mkLLMMessage {
  role : string;      (* system, user, assistant *)
  content : string
}.

Definition to_dict (msg : LLMMessage) : gmap string pyval :=
  <["content" := VStr (content msg)]> {["role" := VStr (role msg)]}.

(** The fields [content], [model], [provider], [usage] and [metadata] of
    the response; [usage] and [metadata] default to [None]. *)
Record LLMResponse : Type := mkLLMResponse {
  resp_content : string;
  resp_model : string;
  resp_provider : string;
  resp_usage : option (gmap string pyval);
  resp_metadata : option (gmap string pyval)
}.

(** A raised exception: its class name and its text [str(e)].  Only
    instances of [Exception] occur, the ones [except Exception] catches. *)
Record pyexn : Type := mkExn {
  exn_class : string;
  exn_str : string
}.

Definition ValueError (msg : string) : pyexn := mkExn "ValueError" msg.
Definition TypeError (msg : string) : pyexn := mkExn "TypeError" msg.
Definition Exception (msg : string) : pyexn := mkExn "Exception" msg.

Inductive pyresult (A : Type) : Type :=
| Ok : A -> pyresult A
| Raise : pyexn -> pyresult A.
Arguments Ok {A} _.
Arguments Raise {A} _.

Definition is_raise {A} (r : pyresult A) : Prop :=
  match r with Ok _ => False | Raise _ => True end.

(** ** Provider adapters

    [provider_generate] is the adapter's [generate(messages, **kwargs)].
    Its first argument is the number of times the adapter has been invoked
    before, so that an adapter may answer differently from one call to the
    next (an upstream that recovers, a scripted test double). *)

Record LLMProvider : Type := mkProvider {
  get_provider_name : string;
  provider_config : gmap string pyval;
  provider_generate :
    nat -> list LLMMessage -> gmap string pyval -> pyresult LLMResponse
}.

(** ** The observable trace of a run

    What the gateway does to the outside: it invokes an adapter, or it
    sleeps between attempts.  Events are appended in the order in which
    they happen.  A delay is the number of seconds given to
    [asyncio.sleep], as an exact rational. *)

Inductive event : Type :=
| EvGenerate (name : string) (messages : list LLMMessage)
             (kwargs : gmap string pyval)
| EvSleep (delay : Q).

Definition is_generate (ev : event) : bool :=
  match ev with EvGenerate _ _ _ => true | EvSleep _ => false end.

Definition is_generate_of (name : string) (ev : event) : bool :=
  match ev with
  | EvGenerate n _ _ => bool_decide (n = name)
  | EvSleep _ => false
  end.

(** The adapter invocations recorded in a trace, and those of one name. *)
Definition adapter_calls (t : list event) : nat :=
  length (List.filter is_generate t).

Definition invocations (name : string) (t : list event) : nat :=
  length (List.filter (is_generate_of name) t).

(** The arguments of the [asyncio.sleep] calls of a trace, in order. *)
Fixpoint sleeps (t : list event) : list Q :=
  match t with
  | [] => []
  | EvSleep d :: t' => d :: sleeps t'
  | EvGenerate _ _ _ :: t' => sleeps t'
  end.

Definition total_slept (t : list event) : Q :=
  fold_right Qplus 0%Q (sleeps t).

(** ** A monad for coroutines that may raise and that extend the trace *)

Definition Run (A : Type) : Type := list event -> pyresult A * list event.

Definition ret {A} (a : A) : Run A := fun t => (Ok a, t).

Definition raise {A} (e : pyexn) : Run A := fun t => (Raise e, t).

Definition bind {A B} (m : Run A) (k : A -> Run B) : Run B :=
  fun t =>
    match m t with
    | (Ok a, t') => k a t'
    | (Raise e, t') => (Raise e, t')
    end.

(** [try: body / except Exception as e: handler e]. *)
Definition try_except {A} (body : Run A) (handler : pyexn -> Run A) : Run A :=
  fun t =>
    match body t with
    | (Ok a, t') => (Ok a, t')
    | (Raise e, t') => handler e t'
    end.

Notation "x <- m ;; k" := (bind m (fun x => k))
  (at level 100, m at next level, right associativity).
Notation "m ;;; k" := (bind m (fun _ => k))
  (at level 100, right associativity).

(** [await asyncio.sleep(delay)]. *)
Definition sleep (delay : Q) : Run unit :=
  fun t => (Ok tt, t ++ [EvSleep delay]).

(** [await llm_provider.generate(messages, **kwargs)]. *)
Definition invoke (p : LLMProvider) (messages : list LLMMessage)
    (kwargs : gmap string pyval) : Run LLMResponse :=
  fun t =>
    (provider_generate p (invocations (get_provider_name p) t) messages kwargs,
     t ++ [EvGenerate (get_provider_name p) messages kwargs]).

(** ** The provider classes *)

(** [all(key in self.config for key in ["api_key", "api_base", "model"])],
    the [validate_config] of the OpenAI, Claude and Kimi providers. *)
Definition validate_config (config : gmap string pyval) : bool :=
  forallb (fun key => bool_decide (is_Some (config !! key)))
          ["api_key"; "api_base"; "model"].

(** [self.config.get(key, default)]. *)
Definition config_get (config : gmap string pyval) (key : string)
    (default : pyval) : pyval :=
  match config !! key with
  | Some v => v
  | None => default
  end.

(** The JSON body of the OpenAI request.  In a dict display the entries
    of [**kwargs], which come last, win over the ones written before. *)
Definition openai_payload (config : gmap string pyval)
    (messages : list LLMMessage) (kwargs : gmap string pyval)
    : gmap string pyval :=
  kwargs ∪
  <["temperature" := config_get config "temperature" (VFloat (7 # 10))]>
  (<["max_tokens" := config_get config "max_tokens" (VInt 2000)]>
  (<["messages" := VList (List.map (fun msg => VDict (to_dict msg)) messages)]>
  {["model" := config_get config "model" (VStr "gpt-3.5-turbo")]})).

(** The Claude format conversion: the loop over [messages] that keeps the
    content of the last system message and collects the other messages. *)
Fixpoint claude_convert (messages : list LLMMessage)
    (system_message : option string) (conversation_messages : list pyval)
    : option string * list pyval :=
  match messages with
  | [] => (system_message, conversation_messages)
  | msg :: rest =>
      if bool_decide (role msg = "system")
      then claude_convert rest (Some (content msg)) conversation_messages
      else claude_convert rest system_message
             (conversation_messages ++ [VDict (to_dict msg)])
  end.

(** The JSON body of the Claude request. *)
Definition claude_payload (config : gmap string pyval)
    (messages : list LLMMessage) (kwargs : gmap string pyval)
    : gmap string pyval :=
  let '(system_message, conversation_messages) :=
    claude_convert messages None [] in
  let payload :=
    kwargs ∪
    <["messages" := VList conversation_messages]>
    (<["max_tokens" := config_get config "max_tokens" (VInt 2000)]>
    {["model" := config_get config "model" (VStr "claude-3-haiku-20240307")]})
  in
  match system_message with
  | Some s => if str_truthy s then <["system" := VStr s]> payload else payload
  | None => payload
  end.

(** The JSON body of the Kimi request. *)
Definition kimi_payload (config : gmap string pyval)
    (messages : list LLMMessage) (kwargs : gmap string pyval)
    : gmap string pyval :=
  kwargs ∪
  <["stream" := VBool false]>
  (<["temperature" := config_get config "temperature" (VFloat (7 # 10))]>
  (<["max_tokens" := config_get config "max_tokens" (VInt 2000)]>
  (<["messages" := VList (List.map (fun msg => VDict (to_dict msg)) messages)]>
  {["model" := config_get config "model" (VStr "moonshot-v1-8k")]}))).

(** [MockLLMProvider.generate]: the canned reply chosen from the last user
    message.  Its own [asyncio.sleep(0.1)] is internal to the adapter and
    is not a gateway event. *)
Definition mock_generate (messages : list LLMMessage) : LLMResponse :=
  let user_messages :=
    List.filter (fun msg => bool_decide (role msg = "user")) messages in
  match last user_messages with
  | None =>
      mkLLMResponse "我没有收到您的消息，请重新发送。" "mock-gpt-3.5" "mock"
                    None None
  | Some last_msg =>
      let last_user_message := lower (content last_msg) in
      let any_in := existsb (fun w => py_in w last_user_message) in
      let response_content :=
        if any_in ["你好"; "hello"; "hi"; "嗨"] then
          "你好！我是Puqee的智能助手。我可以回答您的问题，进行对话交流。有什么我可以帮助您的吗？"
        else if any_in ["是谁"; "你是"; "介绍"; "自己"] then
          "我是Puqee框架的智能ChatBot，基于先进的AI技术构建。我可以进行自然对话、回答问题、提供帮助和建议。"
        else if any_in ["能做"; "功能"; "能力"; "帮助"] then
          "我目前可以提供以下服务：
• 💬 自然对话交流
• 🧠 记忆对话上下文
• ❓ 回答各种问题
• 💡 提供建议和帮助
• 🔧 技术相关咨询"
        else if any_in ["python"; "编程"; "代码"; "开发"; "技术"] then
          "关于技术问题，我很乐意为您解答！Python是一门功能强大的编程语言，广泛用于Web开发、数据科学、人工智能等领域。您想了解哪个方面呢？"
        else if any_in ["谢谢"; "感谢"; "thank"] then
          "不客气！很高兴能帮助您。如果还有其他问题，请随时告诉我。"
        else if any_in ["再见"; "拜拜"; "bye"; "goodbye"] then
          "再见！很高兴为您服务，期待下次交流！"
        else
          "我理解您提到了：" +:+ content last_msg +:+
          "。这是一个有趣的话题！作为AI助手，我会尽力为您提供帮助和信息。您希望我具体回答什么问题呢？"
      in
      mkLLMResponse response_content "mock-gpt-3.5-turbo" "mock"
        (Some (<["total_tokens" := VInt 150]>
               (<["completion_tokens" := VInt 100]>
                {["prompt_tokens" := VInt 50]})))
        (Some (<["response_time" := VFloat (1 # 10)]>
               {["mock" := VBool true]}))
  end.

Section Providers.

(** The upstream HTTP services.  [net name n payload] is the outcome of
    the [n]-th POST of provider [name] with JSON body [payload]: the
    [LLMResponse] parsed from a 200 answer, or the exception that the
    provider re-raises (timeout, transport error, non-200 status). *)
Variable net : string -> nat -> gmap string pyval -> pyresult LLMResponse.

Definition OpenAIProvider (config : gmap string pyval) : LLMProvider :=
  mkProvider "openai" config
    (fun n messages kwargs =>
       if validate_config config
       then net "openai" n (openai_payload config messages kwargs)
       else Raise (ValueError "OpenAI配置不完整")).

Definition ClaudeProvider (config : gmap string pyval) : LLMProvider :=
  mkProvider "claude" config
    (fun n messages kwargs =>
       if validate_config config
       then net "claude" n (claude_payload config messages kwargs)
       else Raise (ValueError "Claude配置不完整")).

Definition KimiProvider (config : gmap string pyval) : LLMProvider :=
  mkProvider "kimi" config
    (fun n messages kwargs =>
       if validate_config config
       then net "kimi" n (kimi_payload config messages kwargs)
       else Raise (ValueError "Kimi配置不完整")).

Definition MockLLMProvider (config : gmap string pyval) : LLMProvider :=
  mkProvider "mock" config (fun _ messages _ => Ok (mock_generate messages)).

End Providers.

(** ** The gateway *)

(** The gateway's configuration dictionary, as [create_llm_gateway] fills
    it from the settings.  A field that is [None] is a key that is absent;
    the three provider sections are dictionaries of their own. *)
Record GatewayConfig : Type := mkConfig {
  cfg_default_provider : option string;
  cfg_retry_count : option Z;
  cfg_retry_delay : option Q;
  cfg_mock_llm : bool;
  cfg_openai : option (gmap string pyval);
  cfg_claude : option (gmap string pyval);
  cfg_kimi : option (gmap string pyval)
}.

(** The empty dictionary, [config or {}] for a gateway built without one. *)
Definition empty_config : GatewayConfig :=
  mkConfig None None None false None None None.

Record LLMGateway : Type := mkGateway {
  providers : gmap string LLMProvider;
  config : GatewayConfig;
  default_provider : option LLMProvider
}.

(** [LLMGateway.__init__]. *)
Definition new_gateway (config : GatewayConfig) : LLMGateway :=
  mkGateway ∅ config None.

(** Truthiness of [self.config.get(section)]: the section is present and
    is not the empty dictionary. *)
Definition section_truthy (section : option (gmap string pyval))
    : option (gmap string pyval) :=
  match section with
  | Some c => if Nat.eqb (size c) 0 then None else Some c
  | None => None
  end.

Definition register_if (name : string)
    (cls : gmap string pyval -> LLMProvider)
    (section : option (gmap string pyval))
    (ps : gmap string LLMProvider) : gmap string LLMProvider :=
  match section_truthy section with
  | Some c => <[name := cls c]> ps
  | None => ps
  end.

Section Lifecycle.

Variable net : string -> nat -> gmap string pyval -> pyresult LLMResponse.

(** [LLMGateway._register_providers]. *)
Definition _register_providers (gw : LLMGateway) : LLMGateway :=
  let ps :=
    if cfg_mock_llm (config gw) then
      let mock_provider := MockLLMProvider ∅ in
      <["mock" := mock_provider]>
      (<["kimi" := mock_provider]>
      (<["claude" := mock_provider]>
      (<["openai" := mock_provider]> (providers gw))))
    else
      register_if "kimi" (KimiProvider net) (cfg_kimi (config gw))
      (register_if "claude" (ClaudeProvider net) (cfg_claude (config gw))
      (register_if "openai" (OpenAIProvider net) (cfg_openai (config gw))
         (providers gw)))
  in
  mkGateway ps (config gw) (default_provider gw).

(** [self.config.get("default_provider", "openai")]. *)
Definition default_provider_name (cfg : GatewayConfig) : string :=
  match cfg_default_provider cfg with
  | Some name => name
  | None => "openai"
  end.

(** [LLMGateway.initialize]. *)
Definition initialize (gw : LLMGateway) : LLMGateway :=
  let gw := _register_providers gw in
  match providers gw !! default_provider_name (config gw) with
  | Some p => mkGateway (providers gw) (config gw) (Some p)
  | None => gw
  end.

End Lifecycle.

(** [LLMGateway.shutdown]. *)
Definition shutdown (gw : LLMGateway) : LLMGateway :=
  mkGateway ∅ (config gw) None.

(** The states a gateway goes through when it is driven by its own
    methods: built by the constructor, then initialized and shut down any
    number of times. *)
Inductive reachable
    (net : string -> nat -> gmap string pyval -> pyresult LLMResponse)
    : LLMGateway -> Prop :=
| reach_new cfg : reachable net (new_gateway cfg)
| reach_initialize gw : reachable net gw -> reachable net (initialize net gw)
| reach_shutdown gw : reachable net gw -> reachable net (shutdown gw).

(** The provider selection at the head of [generate]. *)
Definition select_provider (gw : LLMGateway) (provider : option string)
    : pyresult LLMProvider :=
  let explicit :=
    match provider with
    | Some name => if str_truthy name then providers gw !! name else None
    | None => None
    end in
  match explicit with
  | Some llm_provider => Ok llm_provider
  | None =>
      match default_provider gw with
      | Some llm_provider => Ok llm_provider
      | None => Raise (ValueError "没有可用的LLM提供商")
      end
  end.

(** The [retry_count] in force: the argument, or when it [is None] the
    configured [retry_count], 3 by default. *)
Definition effective_retry_count (gw : LLMGateway) (retry_count : pyval)
    : pyval :=
  match retry_count with
  | VNone =>
      VInt (match cfg_retry_count (config gw) with Some n => n | None => 3 end)
  | v => v
  end.

(** [self.config.get("retry_delay", 1.0)]. *)
Definition retry_delay_of (gw : LLMGateway) : Q :=
  match cfg_retry_delay (config gw) with
  | Some d => d
  | None => 1%Q
  end.

Definition py_type_name (v : pyval) : string :=
  match v with
  | VNone => "NoneType"
  | VBool _ => "bool"
  | VInt _ => "int"
  | VFloat _ => "float"
  | VStr _ => "str"
  | VList _ => "list"
  | VDict _ => "dict"
  end.

(** What [range(v)] takes [v] for: an [int] (a [bool] is one), and a
    [TypeError] for every other value. *)
Definition py_index (v : pyval) : pyresult Z :=
  match v with
  | VInt n => Ok n
  | VBool b => Ok (Z.b2z b)
  | _ => Raise (TypeError ("'" +:+ py_type_name v +:+
                           "' object cannot be interpreted as an integer"))
  end.

(** [str(v)] for the values that get past [range]. *)
Definition py_str_int (v : pyval) : string :=
  match v with
  | VInt n => pretty n
  | VBool true => "True"
  | VBool false => "False"
  | _ => ""
  end.

(** [f"{last_error}"]. *)
Definition str_of_last_error (last_error : option pyexn) : string :=
  match last_error with
  | Some e => exn_str e
  | None => "None"
  end.

(** The outcome of the [for attempt in range(retry_count)] loop: the
    response of the attempt that returned, or the falling out of the loop,
    and [last_error] as it is then. *)
Definition loop_result : Type := (option LLMResponse * option pyexn)%type.

(** The loop of [generate].  [todo] counts the values [range] has still to
    yield, [attempt] is the one in hand. *)
Fixpoint retry_loop (llm_provider : LLMProvider)
    (messages : list LLMMessage) (kwargs : gmap string pyval)
    (retry_count : Z) (retry_delay : Q)
    (todo : nat) (attempt : Z) (last_error : option pyexn)
    : Run loop_result :=
  match todo with
  | O => ret (None, last_error)
  | S todo' =>
      try_except
        ((if 0 <? attempt
          then sleep (retry_delay * inject_Z attempt)
          else ret tt) ;;;
         response <- invoke llm_provider messages kwargs ;;
         ret (Some response, last_error))
        (fun e =>
           if attempt =? retry_count - 1
           then ret (None, Some e)
           else retry_loop llm_provider messages kwargs retry_count
                  retry_delay todo' (attempt + 1) (Some e))
  end.

(** The message of the exception raised when the loop is left without a
    response. *)
Definition exhausted_message (retry_count : pyval)
    (last_error : option pyexn) : string :=
  "LLM调用失败，已重试" +:+ py_str_int retry_count +:+ "次: " +:+
  str_of_last_error last_error.

(** [LLMGateway.generate]. *)
Definition generate (gw : LLMGateway) (messages : list LLMMessage)
    (provider : option string) (retry_count : pyval)
    (kwargs : gmap string pyval) : Run LLMResponse :=
  match select_provider gw provider with
  | Raise e => raise e
  | Ok llm_provider =>
      let retry_count := effective_retry_count gw retry_count in
      let retry_delay := retry_delay_of gw in
      match py_index retry_count with
      | Raise e => raise e
      | Ok n =>
          res <- retry_loop llm_provider messages kwargs n retry_delay
                   (Z.to_nat n) 0 None ;;
          match res with
          | (Some response, _) => ret response
          | (None, last_error) =>
              raise (Exception (exhausted_message retry_count last_error))
          end
      end
  end.

(** The message list [generate_simple] builds. *)
Definition simple_messages (system_prompt user_message : string)
    : list LLMMessage :=
  (if str_truthy system_prompt
   then [mkLLMMessage "system" system_prompt]
   else []) ++ [mkLLMMessage "user" user_message].

(** [LLMGateway.generate_simple].  Its call
    [self.generate(messages, provider, **kwargs)] binds a keyword named
    [retry_count] to that parameter of [generate], and fails with a
    [TypeError] on a keyword named [messages] or [provider], which are
    given by position already (the text of that error is shortened). *)
Definition generate_simple (gw : LLMGateway)
    (system_prompt user_message : string) (provider : option string)
    (kwargs : gmap string pyval) : Run string :=
  let messages := simple_messages system_prompt user_message in
  if bool_decide (is_Some (kwargs !! "messages") ∨
                  is_Some (kwargs !! "provider"))
  then raise (TypeError "generate() got multiple values for argument")
  else
    let retry_count :=
      match kwargs !! "retry_count" with Some v => v | None => VNone end in
    response <- generate gw messages provider retry_count
                  (delete "retry_count" kwargs) ;;
    ret (resp_content response).

(** [LLMGateway.get_available_providers], as the set of the keys. *)
Definition get_available_providers (gw : LLMGateway) : gset string :=
  dom (providers gw).

(** The masking test and the dictionary comprehension of
    [get_provider_info]. *)
Definition is_secret_key (k : string) : bool := py_in "key" (lower k).

Definition mask_config (config : gmap string pyval) : gmap string pyval :=
  map_imap (fun k v => Some (if is_secret_key k then VStr "***" else v)) config.

(** [LLMGateway.get_provider_info]. *)
Definition get_provider_info (gw : LLMGateway) (provider_name : string)
    : gmap string pyval :=
  match providers gw !! provider_name with
  | None => ∅
  | Some provider =>
      <["config" := VDict (mask_config (provider_config provider))]>
      {["name" := VStr (get_provider_name provider)]}
  end.

(** ** Vocabulary of the statements *)

(** The test of the Claude conversion loop. *)
Definition is_system (msg : LLMMessage) : bool :=
  bool_decide (role msg = "system").

(** The words of the specification: the key contains the substring "key",
    whatever the case of its three letters.  The capitals of [k] are [K]
    and the Kelvin sign U+212A, whose small letter is [k]; [e] and [y]
    have one capital each. *)
Definition kelvin_sign : string :=
  String "226" (String "132" (String "170" EmptyString)).

Definition contains_key_ci (k : string) : Prop :=
  exists (pre k1 : string) (c2 c3 : ascii) (post : string),
    k = pre +:+ k1 +:+ String c2 (String c3 post) /\
    (k1 = "k" \/ k1 = "K" \/ k1 = kelvin_sign) /\
    (c2 = "e" \/ c2 = "E")%char /\
    (c3 = "y" \/ c3 = "Y")%char.

(** The string starts with "ey", and with "key", in whatever case. *)
Definition starts_ey (r : string) : Prop :=
  exists c2 c3 post,
    r = String c2 (String c3 post) /\
    (c2 = "e" \/ c2 = "E")%char /\ (c3 = "y" \/ c3 = "Y")%char.

Definition starts_key (s : string) : Prop :=
  exists k1 rest,
    s = k1 +:+ rest /\ (k1 = "k" \/ k1 = "K" \/ k1 = kelvin_sign) /\
    starts_ey rest.

(** The first code point of a string, as [lower] reads it. *)
Inductive lower_view : string -> Prop :=
| view_empty : lower_view ""
| view_idot r :
    lower (String "196" (String "176" r))
    = String "i" (String "204" (String "135" (lower r))) ->
    lower_view (String "196" (String "176" r))
| view_kelvin r :
    lower (String "226" (String "132" (String "170" r)))
    = String "k" (lower r) ->
    lower_view (String "226" (String "132" (String "170" r)))
| view_plain c r :
    lower (String c r) = String (lower_ascii c) (lower r) ->
    (forall r', String c r <> String "226" (String "132" (String "170" r'))) ->
    lower_view (String c r).

(** ** The events of a run of attempts

    [attempt_events name msgs kw d attempt m] is what [m] consecutive
    attempts leave in the trace, the first of them numbered [attempt]:
    each attempt but number 0 sleeps first, then invokes the adapter. *)

Fixpoint attempt_events (name : string) (msgs : list LLMMessage)
    (kw : gmap string pyval) (d : Q) (attempt : Z) (m : nat) : list event :=
  match m with
  | O => []
  | S m' =>
      (if 0 <? attempt then [EvSleep (d * inject_Z attempt)] else [])
      ++ EvGenerate name msgs kw
      :: attempt_events name msgs kw d (attempt + 1) m'
  end.

(** ** Concrete gateways *)

(** An upstream that refuses every connection. *)
Definition refusing_net
    : string -> nat -> gmap string pyval -> pyresult LLMResponse :=
  fun _ _ _ => Raise (mkExn "ClientConnectorError" "connection refused").

(** A complete provider section of the configuration. *)
Definition api_section : gmap string pyval :=
  <["model" := VStr "m1"]>
  (<["api_base" := VStr "http://localhost"]>
  {["api_key" := VStr "sk-test"]}).

(** The gateway in mock mode, its default provider being the mock. *)
Definition mock_gateway : LLMGateway :=
  initialize refusing_net
    (new_gateway (mkConfig (Some "mock") None None true None None None)).

(** The gateway in real mode with OpenAI and Claude configured, OpenAI
    being the default, and the upstream down. *)
Definition real_gateway : LLMGateway :=
  initialize refusing_net
    (new_gateway (mkConfig None None None false
                    (Some api_section) (Some api_section) None)).

(** The gateway in real mode with nothing configured. *)
Definition bare_gateway : LLMGateway :=
  initialize refusing_net (new_gateway empty_config).

Definition hello : list LLMMessage := [mkLLMMessage "user" "hello"].

(** An upstream that refuses the first connection and answers afterwards. *)
Definition recovered_reply : LLMResponse :=
  mkLLMResponse "hi there" "m1" "openai" (Some ∅)
    (Some {["response_id" := VNone]}).

Definition flaky_net
    : string -> nat -> gmap string pyval -> pyresult LLMResponse :=
  fun _ n _ =>
    if (n <? 1)%nat
    then Raise (mkExn "ClientConnectorError" "connection refused")
    else Ok recovered_reply.

(** The gateway in real mode with OpenAI configured on that upstream. *)
Definition flaky_gateway : LLMGateway :=
  initialize flaky_net
    (new_gateway (mkConfig None None None false (Some api_section) None None)).

(** ** The settings and the gateway factory *)

(** The attributes of the [Settings] object that [create_llm_gateway]
    reads, with the types [Settings.__init__] gives them: an API key is
    [os.getenv(...)], a string or [None]. *)
Record Settings : Type := mkSettings {
  DEFAULT_LLM_PROVIDER : string;
  LLM_RETRY_COUNT : Z;
  LLM_RETRY_DELAY : Q;
  LLM_TIMEOUT : Z;
  OPENAI_API_KEY : option string;
  OPENAI_API_BASE : string;
  OPENAI_MODEL : string;
  OPENAI_MAX_TOKENS : Z;
  OPENAI_TEMPERATURE : Q;
  CLAUDE_API_KEY : option string;
  CLAUDE_API_BASE : string;
  CLAUDE_MODEL : string;
  CLAUDE_MAX_TOKENS : Z;
  KIMI_API_KEY : option string;
  KIMI_API_BASE : string;
  KIMI_MODEL : string;
  KIMI_MAX_TOKENS : Z;
  KIMI_TEMPERATURE : Q
}.

(** Truthiness of an API key: it is set and it is not the empty string. *)
Definition key_truthy (key : option string) : option string :=
  match key with
  | Some k => if str_truthy k then Some k else None
  | None => None
  end.

Definition openai_section (settings : Settings) (api_key : string)
    : gmap string pyval :=
  <["timeout" := VInt (LLM_TIMEOUT settings)]>
  (<["temperature" := VFloat (OPENAI_TEMPERATURE settings)]>
  (<["max_tokens" := VInt (OPENAI_MAX_TOKENS settings)]>
  (<["model" := VStr (OPENAI_MODEL settings)]>
  (<["api_base" := VStr (OPENAI_API_BASE settings)]>
  {["api_key" := VStr api_key]})))).

Definition claude_section (settings : Settings) (api_key : string)
    : gmap string pyval :=
  <["timeout" := VInt (LLM_TIMEOUT settings)]>
  (<["max_tokens" := VInt (CLAUDE_MAX_TOKENS settings)]>
  (<["model" := VStr (CLAUDE_MODEL settings)]>
  (<["api_base" := VStr (CLAUDE_API_BASE settings)]>
  {["api_key" := VStr api_key]}))).

Definition kimi_section (settings : Settings) (api_key : string)
    : gmap string pyval :=
  <["timeout" := VInt (LLM_TIMEOUT settings)]>
  (<["temperature" := VFloat (KIMI_TEMPERATURE settings)]>
  (<["max_tokens" := VInt (KIMI_MAX_TOKENS settings)]>
  (<["model" := VStr (KIMI_MODEL settings)]>
  (<["api_base" := VStr (KIMI_API_BASE settings)]>
  {["api_key" := VStr api_key]})))).

(** [create_llm_gateway].  [mock_env] is the environment variable
    [MOCK_LLM], [None] when it is not set. *)
Definition create_llm_gateway (mock_env : option string)
    (settings : Settings) : LLMGateway :=
  let mock_llm :=
    bool_decide
      (lower (match mock_env with Some v => v | None => "false" end) = "true")
  in
  new_gateway
    (mkConfig (Some (DEFAULT_LLM_PROVIDER settings))
       (Some (LLM_RETRY_COUNT settings))
       (Some (LLM_RETRY_DELAY settings))
       mock_llm
       (if mock_llm then None
        else openai_section settings <$> key_truthy (OPENAI_API_KEY settings))
       (if mock_llm then None
        else claude_section settings <$> key_truthy (CLAUDE_API_KEY settings))
       (if mock_llm then None
        else kimi_section settings <$> key_truthy (KIMI_API_KEY settings))).

(** The test of the mock provider's filter. *)
Definition is_user (msg : LLMMessage) : bool :=
  bool_decide (role msg = "user").

(** The names under which the mock provider is registered. *)
Definition mock_names : gset string :=
  {[ "openai"; "claude"; "kimi"; "mock" ]}.

(** The delays of the sleeps before attempts 2 to [m]:
    [retry_delay * 1], ..., [retry_delay * (m - 1)]. *)
Definition backoff_schedule (retry_delay : Q) (m : nat) : list Q :=
  List.map (fun k => (retry_delay * inject_Z (Z.of_nat k))%Q) (seq 1 (m - 1)).

(** The kinds of the events that [m] attempts in a row leave in the
    trace, [true] for a call of the adapter and [false] for a sleep: the
    call of the first attempt, then a sleep and a call for each further
    attempt. *)
Definition attempt_pattern (m : nat) : list bool :=
  match m with
  | O => []
  | S m' => true :: List.concat (List.repeat [false; true] m')
  end.

(** ** The conversation manager ([agent/agents/chatbot/conversation.py]) *)

(** A chat message.  The timestamp is the instant of the message as a
    count of microseconds; what is built from it is not modelled. *)
Record ChatMessage : Type := mkChatMessage {
  chat_role : string;       (* 'user' or 'assistant' *)
  chat_content : string;
  chat_timestamp : Z
}.

(** The slice [l[start:]]: a negative [start] counts from the end and is
    clamped at the beginning of the list, a positive one at its end. *)
Definition py_slice_from {A} (start : Z) (l : list A) : list A :=
  if start <? 0
  then drop (Z.to_nat (Z.of_nat (length l) + start)) l
  else drop (Z.to_nat start) l.

Record ConversationManager : Type := mkConversationManager {
  max_history : Z;
  conversations : gmap string (list ChatMessage)
}.

(** [ConversationManager.__init__]. *)
Definition new_conversation_manager (max_history : Z) : ConversationManager :=
  mkConversationManager max_history ∅.

(** [ConversationManager.add_message]. *)
Definition add_message (cm : ConversationManager) (session_id : string)
    (message : ChatMessage) : ConversationManager :=
  let convs :=
    match conversations cm !! session_id with
    | Some _ => conversations cm
    | None => <[session_id := []]> (conversations cm)
    end in
  let appended := default [] (convs !! session_id) ++ [message] in
  let convs := <[session_id := appended]> convs in
  if max_history cm <? Z.of_nat (length appended)
  then mkConversationManager (max_history cm)
         (<[session_id := py_slice_from (- max_history cm) appended]> convs)
  else mkConversationManager (max_history cm) convs.

(** [ConversationManager.get_conversation_history]; [limit] is tested for
    truth, so that [None] and 0 both mean no limit. *)
Definition get_conversation_history (cm : ConversationManager)
    (session_id : string) (limit : option Z) : list ChatMessage :=
  match conversations cm !! session_id with
  | None => []
  | Some messages =>
      match limit with
      | Some k => if k =? 0 then messages else py_slice_from (- k) messages
      | None => messages
      end
  end.

(** [ConversationManager.clear_conversation]. *)
Definition clear_conversation (cm : ConversationManager)
    (session_id : string) : ConversationManager :=
  match conversations cm !! session_id with
  | Some _ =>
      mkConversationManager (max_history cm)
        (delete session_id (conversations cm))
  | None => cm
  end.

(** [ConversationManager.get_active_sessions], as the set of the keys. *)
Definition get_active_sessions (cm : ConversationManager) : gset string :=
  dom (conversations cm).

(** The states of a manager driven by its own methods. *)
Inductive cm_reachable (limit : Z) : ConversationManager -> Prop :=
| cm_new : cm_reachable limit (new_conversation_manager limit)
| cm_add cm session_id message :
    cm_reachable limit cm ->
    cm_reachable limit (add_message cm session_id message)
| cm_clear cm session_id :
    cm_reachable limit cm ->
    cm_reachable limit (clear_conversation cm session_id).

(** ** The chatbot agent ([agent/agents/chatbot/agent.py]) *)

Definition newline : string := String "010"%char EmptyString.

(** [sep.join(parts)]. *)
Fixpoint py_join (sep : string) (parts : list string) : string :=
  match parts with
  | [] => ""
  | part :: rest =>
      match rest with
      | [] => part
      | _ :: _ => part +:+ sep +:+ py_join sep rest
      end
  end.

(** [len(s)]: the number of code points of the UTF-8 string, which is the
    number of its bytes that are not continuation bytes. *)
Definition is_continuation (c : ascii) : bool :=
  let n := N_of_ascii c in ((128 <=? n) && (n <=? 191))%N.

Fixpoint py_len (s : string) : nat :=
  match s with
  | EmptyString => 0%nat
  | String c rest => ((if is_continuation c then 0 else 1) + py_len rest)%nat
  end.

(** The characters [str.strip] removes, those for which [str.isspace]
    holds, in UTF-8: U+0009 to U+000D, U+001C to U+0020; U+0085 and
    U+00A0; U+1680, U+2000 to U+200A, U+2028, U+2029, U+202F, U+205F and
    U+3000. *)
Definition is_space1 (c : ascii) : bool :=
  let n := N_of_ascii c in
  (((9 <=? n) && (n <=? 13)) || ((28 <=? n) && (n <=? 32)))%N.

Definition is_space2 (c1 c2 : ascii) : bool :=
  let n1 := N_of_ascii c1 in
  let n2 := N_of_ascii c2 in
  ((n1 =? 194) && ((n2 =? 133) || (n2 =? 160)))%N.

Definition is_space3 (c1 c2 c3 : ascii) : bool :=
  let n1 := N_of_ascii c1 in
  let n2 := N_of_ascii c2 in
  let n3 := N_of_ascii c3 in
  (((n1 =? 225) && (n2 =? 154) && (n3 =? 128))
   || ((n1 =? 226) && (n2 =? 128)
       && (((128 <=? n3) && (n3 <=? 138))
           || (n3 =? 168) || (n3 =? 169) || (n3 =? 175)))
   || ((n1 =? 226) && (n2 =? 129) && (n3 =? 159))
   || ((n1 =? 227) && (n2 =? 128) && (n3 =? 128)))%N.

(** [s.lstrip()]. *)
Fixpoint py_lstrip (s : string) : string :=
  match s with
  | EmptyString => EmptyString
  | String c1 r1 =>
      if is_space1 c1 then py_lstrip r1
      else
        match r1 with
        | EmptyString => s
        | String c2 r2 =>
            if is_space2 c1 c2 then py_lstrip r2
            else
              match r2 with
              | EmptyString => s
              | String c3 r3 =>
                  if is_space3 c1 c2 c3 then py_lstrip r3 else s
              end
        end
  end.

(** The same on the reversed string, where the bytes of a character come
    last byte first. *)
Fixpoint py_lstrip_rev (s : string) : string :=
  match s with
  | EmptyString => EmptyString
  | String c1 r1 =>
      if is_space1 c1 then py_lstrip_rev r1
      else
        match r1 with
        | EmptyString => s
        | String c2 r2 =>
            if is_space2 c2 c1 then py_lstrip_rev r2
            else
              match r2 with
              | EmptyString => s
              | String c3 r3 =>
                  if is_space3 c3 c2 c1 then py_lstrip_rev r3 else s
              end
        end
  end.

(** [s.strip()]. *)
Definition py_strip (s : string) : string :=
  String.rev (py_lstrip_rev (String.rev (py_lstrip s))).

(** The white space of Unicode, character by character, each in UTF-8:
    tab, line feed, vertical tab, form feed, carriage return, the four
    separators U+001C to U+001F, the space, U+0085, U+00A0, U+1680,
    U+2000 to U+200A, U+2028, U+2029, U+202F, U+205F and U+3000. *)
Definition utf8_2 (b1 b2 : ascii) : string := String b1 (String b2 "").
Definition utf8_3 (b1 b2 b3 : ascii) : string :=
  String b1 (String b2 (String b3 "")).

Definition whitespace_chars : list string :=
  [ String "009" ""; String "010" ""; String "011" ""; String "012" "";
    String "013" ""; String "028" ""; String "029" ""; String "030" "";
    String "031" ""; " ";
    utf8_2 "194" "133"; utf8_2 "194" "160";
    utf8_3 "225" "154" "128";
    utf8_3 "226" "128" "128"; utf8_3 "226" "128" "129";
    utf8_3 "226" "128" "130"; utf8_3 "226" "128" "131";
    utf8_3 "226" "128" "132"; utf8_3 "226" "128" "133";
    utf8_3 "226" "128" "134"; utf8_3 "226" "128" "135";
    utf8_3 "226" "128" "136"; utf8_3 "226" "128" "137";
    utf8_3 "226" "128" "138";
    utf8_3 "226" "128" "168"; utf8_3 "226" "128" "169";
    utf8_3 "226" "128" "175";
    utf8_3 "226" "129" "159";
    utf8_3 "227" "128" "128" ].

(** A blank string: white space from its first character to its last,
    the empty string included. *)
Inductive blank : string -> Prop :=
| blank_empty : blank ""
| blank_space (w s : string) :
    In w whitespace_chars -> blank s -> blank (w +:+ s).

(** The agent: its name, its conversation manager and the gateway that
    [inject_dependencies] gave it, [None] before. *)
Record ChatBotAgent : Type := mkChatBotAgent {
  agent_name : string;
  conversation_manager : ConversationManager;
  llm_gateway : option LLMGateway
}.

Definition system_prompt : string :=
  "你是Puqee框架的智能助手，名叫ChatBot。你的特点：
1. 友好、专业、有帮助
2. 能够记住对话上下文
3. 擅长回答技术问题和日常交流
4. 会根据用户需求提供合适的建议
5. 保持简洁明了的回复风格

请用中文与用户交流。".

(** [ChatBotAgent.__init__] with its default name. *)
Definition new_chatbot_agent : ChatBotAgent :=
  mkChatBotAgent "ChatBot" (new_conversation_manager 100) None.

(** [Agent.inject_dependencies], for the gateway. *)
Definition inject_dependencies (agent : ChatBotAgent)
    (gw : option LLMGateway) : ChatBotAgent :=
  mkChatBotAgent (agent_name agent) (conversation_manager agent) gw.

(** One line of the context: the role name and the content. *)
Definition context_line (msg : ChatMessage) : string :=
  (if bool_decide (chat_role msg = "user") then "用户" else "助手")
  +:+ ": " +:+ chat_content msg.

(** [ChatBotAgent._build_user_message_with_context]. *)
Definition _build_user_message_with_context (history : list ChatMessage)
    (current_message : string) : string :=
  match history with
  | [] => current_message
  | _ :: _ =>
      let recent_history := py_slice_from (- 6) history in
      let context_parts :=
        match recent_history with
        | [] => []
        | _ :: _ =>
            ["对话上下文："] ++ List.map context_line recent_history ++ [""]
        end in
      py_join newline
        (context_parts ++ ["当前用户消息: " +:+ current_message])
  end.

(** [ChatBotAgent._generate_smart_default_response].  [pick] is the index
    that [random.choice] draws. *)
Definition _generate_smart_default_response (name : string) (pick : nat)
    (user_message : string) (history : list ChatMessage) : string :=
  let message_lower := py_strip (lower user_message) in
  let any_in := existsb (fun w => py_in w message_lower) in
  if any_in ["你好"; "您好"; "hello"; "hi"; "嗨"] then
    if (length history <=? 2)%nat
    then "您好！我是" +:+ name +:+ "，Puqee框架的智能助手。我可以帮助您解答问题、进行对话。有什么我可以帮助您的吗？"
    else "您好！有什么新的问题我可以帮助您解决吗？"
  else if any_in ["再见"; "拜拜"; "goodbye"; "bye"] then
    "再见！很高兴为您服务，期待下次交流！"
  else if any_in ["谢谢"; "感谢"; "thank"] then
    "不客气！很高兴能帮助您。还有其他问题吗？"
  else if any_in ["你是谁"; "介绍一下"; "自我介绍"] then
    "我是" +:+ name +:+ "，基于Puqee智能体框架开发的聊天助手。我可以：
1. 与您进行自然对话
2. 记住我们的对话历史
3. 回答各种问题
4. 提供技术支持

很高兴认识您！"
  else if any_in ["能做什么"; "功能"; "帮助"; "help"] then
    "我目前可以为您提供以下服务：
• 💬 自然对话交流
• 🧠 记忆对话上下文
• ❓ 回答问题和解疑
• 💡 提供建议和帮助
• 🔧 技术相关咨询

请随时告诉我您需要什么帮助！"
  else if py_in "历史" message_lower || py_in "记录" message_lower then
    "我们目前已经进行了 " +:+ pretty (length history / 2)%nat +:+ " 轮对话。我会记住我们的对话内容，以便更好地为您服务。"
  else if any_in ["puqee"; "框架"; "代码"; "编程"; "开发"] then
    "关于Puqee框架或技术问题，我很乐意与您探讨！Puqee是一个通用智能体框架，采用三层架构设计。您想了解哪个方面的内容呢？"
  else if (100 <? py_len user_message)%nat then
    "您提到的内容很详细，我正在理解中。虽然我的能力还在不断学习完善，但我会尽力为您提供有用的回复。能告诉我您最关心的是哪个方面吗？"
  else if py_in "?" user_message || py_in "？" user_message then
    "这是一个很好的问题！虽然我目前的知识库还在建设中，但我可以尝试从不同角度来思考这个问题。您能提供更多背景信息吗？"
  else
    match (pick mod 4)%nat with
    | 0%nat => "我理解您的意思。您能详细说明一下吗？"
    | 1%nat => "这听起来很有趣！能告诉我更多相关信息吗？"
    | 2%nat => "我正在思考您的话，能否给我一些更多的上下文呢？"
    | _ => "感谢您的分享。我想更好地理解您的需求，可以详细解释一下吗？"
    end.

(** [ChatBotAgent._generate_response]: the reply of the gateway, stripped,
    or the default reply when there is no gateway, when the call raises
    or when the reply is blank. *)
Definition _generate_response (agent : ChatBotAgent) (pick : nat)
    (user_message session_id : string) : Run string :=
  let history :=
    get_conversation_history (conversation_manager agent) session_id
      (Some 10) in
  let fallback :=
    _generate_smart_default_response (agent_name agent) pick user_message
      history in
  match llm_gateway agent with
  | Some gw =>
      try_except
        (response <- generate_simple gw system_prompt
                       (_build_user_message_with_context history user_message)
                       None ∅ ;;
         if str_truthy response && str_truthy (py_strip response)
         then ret (py_strip response)
         else ret fallback)
        (fun _ => ret fallback)
  | None => ret fallback
  end.

(** The input of [process]: the entries [message] and [session_id] of
    [input_data], [None] when the key is absent. *)
Record ProcessInput : Type := mkProcessInput {
  in_message : option string;
  in_session_id : option string
}.

Definition error_result (message session_id : string) : gmap string pyval :=
  <["session_id" := VStr session_id]>
  (<["message" := VStr message]>
  {["status" := VStr "error"]}).

Section Process.

(** [datetime.isoformat], of the standard library. *)
Variable isoformat : Z -> string.

(** [ChatBotAgent.process].  [t_user], [t_reply] and [t_done] are the
    three readings of [datetime.now()], [pick] the draw of
    [random.choice].  The result is the returned dictionary and the agent
    with its conversation manager as the call leaves it. *)
Definition process (agent : ChatBotAgent) (t_user t_reply t_done : Z)
    (pick : nat) (input_data : ProcessInput)
    : Run (gmap string pyval * ChatBotAgent) :=
  try_except
    (let user_message := default "" (in_message input_data) in
     let session_id := default "default" (in_session_id input_data) in
     if negb (str_truthy (py_strip user_message))
     then ret (error_result "用户消息不能为空" session_id, agent)
     else
       let user_chat_message := mkChatMessage "user" user_message t_user in
       let agent1 :=
         mkChatBotAgent (agent_name agent)
           (add_message (conversation_manager agent) session_id
              user_chat_message)
           (llm_gateway agent) in
       response <- _generate_response agent1 pick user_message session_id ;;
       let assistant_message := mkChatMessage "assistant" response t_reply in
       let agent2 :=
         mkChatBotAgent (agent_name agent)
           (add_message (conversation_manager agent1) session_id
              assistant_message)
           (llm_gateway agent) in
       ret (<["conversation_length" :=
                VInt (Z.of_nat (length (get_conversation_history
                                          (conversation_manager agent2)
                                          session_id None)))]>
            (<["timestamp" := VStr (isoformat t_done)]>
            (<["session_id" := VStr session_id]>
            (<["response" := VStr response]>
            {["status" := VStr "success"]}))),
            agent2))
    (fun e =>
       ret (error_result ("处理请求时出现错误: " +:+ exn_str e)
              (default "default" (in_session_id input_data)),
            agent)).

End Process.

(** * Properties *)

(** ** Counting events *)

Lemma invocations_app name (t1 t2 : list event) :
  invocations name (t1 ++ t2) = (invocations name t1 + invocations name t2)%nat.
Proof. unfold invocations. by rewrite List.filter_app, length_app. Qed.

Lemma adapter_calls_app (t1 t2 : list event) :
  adapter_calls (t1 ++ t2) = (adapter_calls t1 + adapter_calls t2)%nat.
Proof. unfold adapter_calls. by rewrite List.filter_app, length_app. Qed.

Lemma sleeps_app (t1 t2 : list event) :
  sleeps (t1 ++ t2) = sleeps t1 ++ sleeps t2.
Proof.
  induction t1 as [|[name msgs kw|d] t1 IH]; simpl; [done | done |].
  by rewrite IH.
Qed.

Lemma invocations_sleep name (t : list event) d :
  invocations name (t ++ [EvSleep d]) = invocations name t.
Proof. rewrite invocations_app. unfold invocations at 2. simpl. lia. Qed.

Lemma invocations_generate name (t : list event) msgs kw :
  invocations name (t ++ [EvGenerate name msgs kw]) = S (invocations name t).
Proof.
  rewrite invocations_app. unfold invocations at 2. simpl.
  rewrite bool_decide_eq_true_2 by done. simpl. lia.
Qed.

Lemma invocations_generate_cons name (t : list event) msgs kw :
  invocations name (EvGenerate name msgs kw :: t) = S (invocations name t).
Proof.
  unfold invocations. simpl. by rewrite bool_decide_eq_true_2.
Qed.

Lemma attempt_events_invocations name msgs kw d m : forall attempt,
  invocations name (attempt_events name msgs kw d attempt m) = m.
Proof.
  induction m as [|m IH]; intros attempt; simpl; [done|].
  rewrite invocations_app, invocations_generate_cons, IH.
  destruct (0 <? attempt); unfold invocations; simpl; lia.
Qed.

Lemma attempt_events_calls name msgs kw d m : forall attempt,
  adapter_calls (attempt_events name msgs kw d attempt m) = m.
Proof.
  induction m as [|m IH]; intros attempt; simpl; [done|].
  rewrite adapter_calls_app.
  change (adapter_calls (EvGenerate name msgs kw ::
            attempt_events name msgs kw d (attempt + 1) m))
    with (S (adapter_calls (attempt_events name msgs kw d (attempt + 1) m))).
  rewrite IH. destruct (0 <? attempt); unfold adapter_calls; simpl; lia.
Qed.

Lemma attempt_events_last name msgs kw d m : forall attempt,
  last (attempt_events name msgs kw d attempt (S m))
  = Some (EvGenerate name msgs kw).
Proof.
  induction m as [|m IH]; intros attempt.
  - simpl. destruct (0 <? attempt); done.
  - change (attempt_events name msgs kw d attempt (S (S m)))
      with ((if 0 <? attempt then [EvSleep (d * inject_Z attempt)] else [])
            ++ EvGenerate name msgs kw
            :: attempt_events name msgs kw d (attempt + 1) (S m)).
    by rewrite last_app_cons, last_cons, IH.
Qed.

(** Every adapter invocation among the events carries the same arguments. *)
Lemma attempt_events_args name msgs kw d m : forall attempt,
  Forall (fun ev => is_generate ev = true -> ev = EvGenerate name msgs kw)
         (attempt_events name msgs kw d attempt m).
Proof.
  induction m as [|m IH]; intros attempt; simpl; [constructor|].
  apply Forall_app. split.
  - destruct (0 <? attempt); repeat constructor. simpl. discriminate.
  - constructor; [done | apply IH].
Qed.

(** ** The retry loop *)

Section RetryLoop.

Variable a : LLMProvider.
Variable msgs : list LLMMessage.
Variable kw : gmap string pyval.
Variable n : Z.
Variable d : Q.

Let name := get_provider_name a.
Let outcome (i : nat) := provider_generate a i msgs kw.

(** One turn of the loop whose adapter call raises. *)
Lemma retry_loop_turn_raise todo attempt le t e :
  outcome (invocations name t) = Raise e ->
  retry_loop a msgs kw n d (S todo) attempt le t
  = (if attempt =? n - 1
     then ret (None, Some e)
     else retry_loop a msgs kw n d todo (attempt + 1) (Some e))
      (t ++ attempt_events name msgs kw d attempt 1).
Proof.
  intros He. subst name outcome. simpl.
  unfold try_except, bind, sleep, ret, invoke.
  destruct (0 <? attempt); simpl.
  - rewrite invocations_sleep, He. by rewrite <- app_assoc.
  - by rewrite He.
Qed.

(** One turn of the loop whose adapter call returns. *)
Lemma retry_loop_turn_return todo attempt le t r :
  outcome (invocations name t) = Ok r ->
  retry_loop a msgs kw n d (S todo) attempt le t
  = (Ok (Some r, le), t ++ attempt_events name msgs kw d attempt 1).
Proof.
  intros Hr. subst name outcome. simpl.
  unfold try_except, bind, sleep, ret, invoke.
  destruct (0 <? attempt); simpl.
  - rewrite invocations_sleep, Hr. by rewrite <- app_assoc.
  - by rewrite Hr.
Qed.

Lemma attempt_events_S attempt m :
  attempt_events name msgs kw d attempt (S m)
  = attempt_events name msgs kw d attempt 1
    ++ attempt_events name msgs kw d (attempt + 1) m.
Proof. simpl. by rewrite <- app_assoc. Qed.

Lemma invocations_turn t attempt :
  invocations name (t ++ attempt_events name msgs kw d attempt 1)
  = S (invocations name t).
Proof.
  rewrite invocations_app, attempt_events_invocations. lia.
Qed.

(** When every attempt raises, the loop makes all of them and ends with
    the error of the last one. *)
Lemma retry_loop_exhausted : forall todo attempt le t e_last,
  Z.of_nat (S todo) + attempt = n ->
  (forall i, (i < todo)%nat -> is_raise (outcome (invocations name t + i))) ->
  outcome (invocations name t + todo) = Raise e_last ->
  retry_loop a msgs kw n d (S todo) attempt le t
  = (Ok (None, Some e_last),
     t ++ attempt_events name msgs kw d attempt (S todo)).
Proof.
  induction todo as [|todo IH]; intros attempt le t e_last Hn Hfail Hlast.
  - rewrite Nat.add_0_r in Hlast.
    rewrite (retry_loop_turn_raise _ _ _ _ _ Hlast).
    by destruct (attempt =? n - 1).
  - pose proof (Hfail 0%nat ltac:(lia)) as H0. rewrite Nat.add_0_r in H0.
    destruct (outcome (invocations name t)) as [r|e] eqn:He; [done|].
    rewrite (retry_loop_turn_raise _ _ _ _ _ He).
    destruct (Z.eqb_spec attempt (n - 1)) as [Heq|_]; [lia|].
    rewrite (IH (attempt + 1) (Some e) _ e_last).
    + by rewrite <- app_assoc, <- attempt_events_S.
    + lia.
    + intros i Hi. rewrite invocations_turn.
      replace (S (invocations name t) + i)%nat
        with (invocations name t + S i)%nat by lia.
      apply Hfail. lia.
    + rewrite invocations_turn.
      by replace (S (invocations name t) + todo)%nat
        with (invocations name t + S todo)%nat by lia.
Qed.

(** When the first [k] attempts raise and the next one returns, the loop
    stops there with that response. *)
Lemma retry_loop_recovers : forall k todo attempt le t r,
  (k < todo)%nat ->
  Z.of_nat todo + attempt = n ->
  (forall i, (i < k)%nat -> is_raise (outcome (invocations name t + i))) ->
  outcome (invocations name t + k) = Ok r ->
  exists le',
    retry_loop a msgs kw n d todo attempt le t
    = (Ok (Some r, le'),
       t ++ attempt_events name msgs kw d attempt (S k)).
Proof.
  induction k as [|k IH]; intros todo attempt le t r Hk Hn Hfail Hok;
    destruct todo as [|todo]; try lia.
  - rewrite Nat.add_0_r in Hok. exists le.
    apply retry_loop_turn_return, Hok.
  - pose proof (Hfail 0%nat ltac:(lia)) as H0. rewrite Nat.add_0_r in H0.
    destruct (outcome (invocations name t)) as [r0|e] eqn:He; [done|].
    rewrite (retry_loop_turn_raise _ _ _ _ _ He).
    destruct (Z.eqb_spec attempt (n - 1)) as [Heq|_]; [lia|].
    destruct (IH todo (attempt + 1) (Some e)
                (t ++ attempt_events name msgs kw d attempt 1) r)
      as [le' Hrun].
    + lia.
    + lia.
    + intros i Hi. rewrite invocations_turn.
      replace (S (invocations name t) + i)%nat
        with (invocations name t + S i)%nat by lia.
      apply Hfail. lia.
    + rewrite invocations_turn.
      by replace (S (invocations name t) + k)%nat
        with (invocations name t + S k)%nat by lia.
    + exists le'. rewrite Hrun.
      by rewrite <- app_assoc, <- attempt_events_S.
Qed.

(** Whatever the adapter does, the loop only appends events of its own
    attempts: backoff sleeps, and invocations with the arguments it was
    given. *)
Lemma retry_loop_appends : forall todo attempt le t,
  exists evs,
    snd (retry_loop a msgs kw n d todo attempt le t) = t ++ evs /\
    Forall (fun ev => is_generate ev = true -> ev = EvGenerate name msgs kw)
           evs.
Proof.
  induction todo as [|todo IH]; intros attempt le t.
  - exists []. simpl. by rewrite app_nil_r.
  - destruct (outcome (invocations name t)) as [r|e] eqn:He.
    + rewrite (retry_loop_turn_return _ _ _ _ _ He).
      eexists. split; [done|]. apply attempt_events_args.
    + rewrite (retry_loop_turn_raise _ _ _ _ _ He).
      destruct (attempt =? n - 1).
      * eexists. split; [done|]. apply attempt_events_args.
      * destruct (IH (attempt + 1) (Some e)
                    (t ++ attempt_events name msgs kw d attempt 1))
          as (evs & Hevs & Hall).
        exists (attempt_events name msgs kw d attempt 1 ++ evs).
        split; [by rewrite Hevs, app_assoc|].
        apply Forall_app. split; [apply attempt_events_args | done].
Qed.

End RetryLoop.

(** ** Retry and backoff *)

(** [generate] once the provider is resolved and the retry count is an
    integer: the loop, then the response or the final exception. *)
Lemma generate_resolved (gw : LLMGateway) msgs provider rc kw t a n :
  select_provider gw provider = Ok a ->
  effective_retry_count gw rc = VInt n ->
  generate gw msgs provider rc kw t
  = match retry_loop a msgs kw n (retry_delay_of gw) (Z.to_nat n) 0 None t with
    | (Ok (Some response, _), t') => (Ok response, t')
    | (Ok (None, last_error), t') =>
        (Raise (Exception (exhausted_message (VInt n) last_error)), t')
    | (Raise e, t') => (Raise e, t')
    end.
Proof.
  intros Hsel Heff. unfold generate. rewrite Hsel, Heff. cbn [py_index].
  unfold bind.
  destruct (retry_loop a msgs kw n (retry_delay_of gw) (Z.to_nat n) 0 None t)
    as [[[[r|] le]|e] t']; reflexivity.
Qed.

(** C3: with a resolved adapter that always fails and a retry count of 3,
    [generate] invokes the adapter exactly three times and then raises;
    it sleeps exactly twice, for [base_delay * 1] before the second attempt
    and for [base_delay * 2] before the third, so that the total slept
    delay is [base_delay * 1 + base_delay * 2]. *)
Theorem generate_always_failing_three_attempts
    (gw : LLMGateway) (msgs : list LLMMessage) (provider : option string)
    (rc : pyval) (kw : gmap string pyval) (t : list event) (a : LLMProvider) :
  select_provider gw provider = Ok a ->
  effective_retry_count gw rc = VInt 3 ->
  (forall i m k, is_raise (provider_generate a i m k)) ->
  let call := EvGenerate (get_provider_name a) msgs kw in
  let base_delay := retry_delay_of gw in
  let t' := [call; EvSleep (base_delay * inject_Z 1);
             call; EvSleep (base_delay * inject_Z 2);
             call] in
  (exists e, generate gw msgs provider rc kw t = (Raise e, t ++ t')) /\
  adapter_calls t' = 3%nat /\
  sleeps t' = [(base_delay * 1)%Q; (base_delay * 2)%Q] /\
  (total_slept t' == base_delay * 1 + base_delay * 2)%Q.
Proof.
  intros Hsel Heff Hfail call base_delay t'. repeat split.
  - destruct (provider_generate a (invocations (get_provider_name a) t + 2)
                msgs kw) as [r|e_last] eqn:Hlast.
    { specialize (Hfail (invocations (get_provider_name a) t + 2)%nat msgs kw).
      by rewrite Hlast in Hfail. }
    eexists. rewrite (generate_resolved _ _ _ _ _ _ _ _ Hsel Heff).
    change (Z.to_nat 3) with 3%nat.
    rewrite (retry_loop_exhausted a msgs kw 3 (retry_delay_of gw) 2 0 None t e_last);
      [reflexivity | lia | intros; apply Hfail | exact Hlast].
  - unfold total_slept. simpl. ring.
Qed.

Lemma generate_always_failing_three_attempts_witness :
  exists e,
    generate real_gateway hello None VNone ∅ []
    = (Raise e,
       [EvGenerate "openai" hello ∅; EvSleep (1 * inject_Z 1);
        EvGenerate "openai" hello ∅; EvSleep (1 * inject_Z 2);
        EvGenerate "openai" hello ∅]).
Proof.
  apply (generate_always_failing_three_attempts real_gateway hello None VNone
           ∅ [] (OpenAIProvider refusing_net api_section)).
  - reflexivity.
  - reflexivity.
  - intros i m k. vm_compute. exact I.
Defined.

(** C4: with a resolved adapter that fails on its first [N - 1] invocations
    and succeeds on the [N]-th, [N] being at most the retry count,
    [generate] returns that response after exactly [N] invocations of the
    adapter, the successful one being the last event of the call. *)
Theorem generate_succeeds_on_attempt_N
    (gw : LLMGateway) (msgs : list LLMMessage) (provider : option string)
    (rc : pyval) (kw : gmap string pyval) (t : list event) (a : LLMProvider)
    (N : nat) (max_attempts : Z) (r : LLMResponse) :
  select_provider gw provider = Ok a ->
  effective_retry_count gw rc = VInt max_attempts ->
  (1 <= N)%nat ->
  Z.of_nat N <= max_attempts ->
  let name := get_provider_name a in
  (forall i, (i < N - 1)%nat ->
     is_raise (provider_generate a (invocations name t + i) msgs kw)) ->
  provider_generate a (invocations name t + (N - 1)) msgs kw = Ok r ->
  exists t',
    generate gw msgs provider rc kw t = (Ok r, t ++ t') /\
    adapter_calls t' = N /\
    invocations name t' = N /\
    last t' = Some (EvGenerate name msgs kw).
Proof.
  intros Hsel Heff HN Hmax name Hfail Hok.
  destruct (retry_loop_recovers a msgs kw max_attempts (retry_delay_of gw)
              (N - 1) (Z.to_nat max_attempts) 0 None t r) as [le' Hrun];
    [lia | lia | exact Hfail | exact Hok |].
  replace (S (N - 1)) with N in Hrun by lia.
  exists (attempt_events name msgs kw (retry_delay_of gw) 0 N). split.
  - by rewrite (generate_resolved _ _ _ _ _ _ _ _ Hsel Heff), Hrun.
  - rewrite attempt_events_calls, attempt_events_invocations.
    destruct N as [|N]; [lia|]. by rewrite attempt_events_last.
Qed.

Lemma generate_succeeds_on_attempt_N_witness :
  exists t',
    generate flaky_gateway hello None VNone ∅ [] = (Ok recovered_reply, t') /\
    adapter_calls t' = 2%nat.
Proof.
  destruct (generate_succeeds_on_attempt_N flaky_gateway hello None VNone ∅ []
              (OpenAIProvider flaky_net api_section) 2 3 recovered_reply)
    as (t' & Hrun & Hcalls & _).
  - reflexivity.
  - reflexivity.
  - lia.
  - lia.
  - intros i Hi. assert (i = 0%nat) as -> by lia. vm_compute. exact I.
  - reflexivity.
  - exists t'. split; [exact Hrun | exact Hcalls].
Defined.

(** ** Running out of attempts *)

(** C10: with a resolved provider and a retry count that is 0 or negative,
    [generate] raises without invoking the adapter and without sleeping:
    the trace is left as it was, the loop is left with [last_error] still
    [None], and the error text is built from that [None]. *)
Theorem generate_without_attempts
    (gw : LLMGateway) (msgs : list LLMMessage) (provider : option string)
    (rc : pyval) (kw : gmap string pyval) (t : list event) (a : LLMProvider)
    (n : Z) :
  select_provider gw provider = Ok a ->
  effective_retry_count gw rc = VInt n ->
  n <= 0 ->
  retry_loop a msgs kw n (retry_delay_of gw) (Z.to_nat n) 0 None t
  = (Ok (None, None), t) /\
  generate gw msgs provider rc kw t
  = (Raise (Exception (exhausted_message (VInt n) None)), t) /\
  exhausted_message (VInt n) None
  = "LLM调用失败，已重试" +:+ pretty n +:+ "次: None".
Proof.
  intros Hsel Heff Hn.
  assert (Z.to_nat n = 0%nat) as Hz by lia.
  repeat split.
  - by rewrite Hz.
  - by rewrite (generate_resolved _ _ _ _ _ _ _ _ Hsel Heff), Hz.
Qed.

Lemma generate_without_attempts_witness :
  generate real_gateway hello None (VInt 0) ∅ []
  = (Raise (Exception (exhausted_message (VInt 0) None)), []).
Proof.
  apply (generate_without_attempts real_gateway hello None (VInt 0) ∅ []
           (OpenAIProvider refusing_net api_section) 0).
  - reflexivity.
  - reflexivity.
  - lia.
Defined.

(** C5, as the code has it: when every attempt fails, the error raised is
    a plain [Exception] whose text holds the retry count and the text of
    the last adapter error, after as many invocations as the retry count.
    It differs in class from the [ValueError] raised when no provider is
    available. *)
Theorem generate_exhausted_error
    (gw : LLMGateway) (msgs : list LLMMessage) (provider : option string)
    (rc : pyval) (kw : gmap string pyval) (t : list event) (a : LLMProvider)
    (n : Z) (e_last : pyexn) :
  select_provider gw provider = Ok a ->
  effective_retry_count gw rc = VInt n ->
  1 <= n ->
  let name := get_provider_name a in
  (forall i, (i < Z.to_nat n)%nat ->
     is_raise (provider_generate a (invocations name t + i) msgs kw)) ->
  provider_generate a (invocations name t + (Z.to_nat n - 1)) msgs kw
  = Raise e_last ->
  let err :=
    mkExn "Exception"
      ("LLM调用失败，已重试" +:+ pretty n +:+ "次: " +:+ exn_str e_last) in
  (exists t',
     generate gw msgs provider rc kw t = (Raise err, t ++ t') /\
     adapter_calls t' = Z.to_nat n) /\
  exn_class err <> exn_class (ValueError "没有可用的LLM提供商").
Proof.
  intros Hsel Heff Hn name Hfail Hlast err. split; [|discriminate].
  exists (attempt_events name msgs kw (retry_delay_of gw) 0 (Z.to_nat n)).
  rewrite attempt_events_calls. split; [|done].
  rewrite (generate_resolved _ _ _ _ _ _ _ _ Hsel Heff).
  destruct (Z.to_nat n) as [|todo] eqn:Htodo; [lia|].
  rewrite (retry_loop_exhausted a msgs kw n (retry_delay_of gw) todo 0 None t
             e_last); [reflexivity | lia | | ].
  - intros i Hi. apply Hfail. lia.
  - by replace todo with (S todo - 1)%nat by lia.
Qed.

Lemma generate_exhausted_error_witness :
  exists t',
    generate real_gateway hello (Some "claude") (VInt 2) ∅ []
    = (Raise (Exception "LLM调用失败，已重试2次: connection refused"), t').
Proof.
  destruct (generate_exhausted_error real_gateway hello (Some "claude")
              (VInt 2) ∅ [] (ClaudeProvider refusing_net api_section) 2
              (mkExn "ClientConnectorError" "connection refused"))
    as [(t' & Hrun & _) _].
  - reflexivity.
  - reflexivity.
  - lia.
  - intros i _. vm_compute. exact I.
  - reflexivity.
  - exists ([] ++ t'). exact Hrun.
Defined.

(** C5 does not hold as stated: calls to two different providers that fail
    alike raise one and the same error, of class [Exception] and not
    [GatewayError]; the provider name is not in it. *)
Lemma exhausted_error_omits_provider :
  exists (err : pyexn) (t1 t2 : list event),
    generate real_gateway hello (Some "openai") (VInt 2) ∅ [] = (Raise err, t1) /\
    generate real_gateway hello (Some "claude") (VInt 2) ∅ [] = (Raise err, t2) /\
    invocations "openai" t1 = 2%nat /\
    invocations "claude" t2 = 2%nat /\
    exn_class err = "Exception" /\
    exn_class err <> "GatewayError".
Proof.
  do 3 eexists. split; [vm_compute; reflexivity|].
  split; [vm_compute; reflexivity|].
  split; [vm_compute; reflexivity|].
  split; [vm_compute; reflexivity|].
  split; [reflexivity | discriminate].
Qed.

(** ** Provider selection *)

Lemma select_provider_unknown (gw : LLMGateway) name :
  providers gw !! name = None ->
  select_provider gw (Some name) = select_provider gw None.
Proof.
  intros Hname. unfold select_provider.
  destruct (str_truthy name); [by rewrite Hname | done].
Qed.

Lemma generate_select_eq (gw : LLMGateway) msgs p1 p2 rc kw t :
  select_provider gw p1 = select_provider gw p2 ->
  generate gw msgs p1 rc kw t = generate gw msgs p2 rc kw t.
Proof. intros Heq. unfold generate. by rewrite Heq. Qed.

Lemma generate_no_provider (gw : LLMGateway) msgs rc kw t :
  default_provider gw = None ->
  generate gw msgs None rc kw t
  = (Raise (ValueError "没有可用的LLM提供商"), t).
Proof.
  intros Hdef. unfold generate, select_provider. by rewrite Hdef.
Qed.

(** Registration only adds or replaces entries. *)
Lemma register_providers_None net (gw : LLMGateway) (k : string) :
  providers (_register_providers net gw) !! k = None ->
  providers gw !! k = None.
Proof.
  unfold _register_providers, register_if. simpl.
  destruct (cfg_mock_llm (config gw)).
  - rewrite !lookup_insert_None. tauto.
  - destruct (section_truthy (cfg_kimi (config gw)));
      destruct (section_truthy (cfg_claude (config gw)));
      destruct (section_truthy (cfg_openai (config gw)));
      rewrite ?lookup_insert_None; tauto.
Qed.

(** Invariant of the gateway: the default provider is the adapter
    registered under the configured default name, and there is none when
    that name is not registered. *)
Lemma reachable_default_provider net (gw : LLMGateway) :
  reachable net gw ->
  default_provider gw = providers gw !! default_provider_name (config gw).
Proof.
  induction 1 as [cfg | gw Hgw IH | gw Hgw IH]; [done | | done].
  unfold initialize.
  destruct (providers (_register_providers net gw)
              !! default_provider_name (config (_register_providers net gw)))
    as [p|] eqn:Hp; simpl in *; rewrite Hp; [done|].
  rewrite IH. by apply (register_providers_None net).
Qed.

(** C1, as the code has it: with an explicit provider name that is not a
    key of the provider mapping, [generate] does what it does when no
    provider is named.  It dispatches to the default provider when one is
    set, and raises [ValueError] without invoking any adapter when none is
    set. *)
Theorem generate_unknown_provider
    (gw : LLMGateway) (name : string) (msgs : list LLMMessage) (rc : pyval)
    (kw : gmap string pyval) (t : list event) :
  providers gw !! name = None ->
  generate gw msgs (Some name) rc kw t = generate gw msgs None rc kw t /\
  (forall d, default_provider gw = Some d ->
     select_provider gw (Some name) = Ok d) /\
  (default_provider gw = None ->
     generate gw msgs (Some name) rc kw t
     = (Raise (ValueError "没有可用的LLM提供商"), t)).
Proof.
  intros Hname.
  pose proof (select_provider_unknown gw name Hname) as Hsel.
  split; [by apply generate_select_eq|]. split.
  - intros d Hd. rewrite Hsel. unfold select_provider. by rewrite Hd.
  - intros Hd. rewrite (generate_select_eq _ _ _ None) by done.
    by apply generate_no_provider.
Qed.

Lemma generate_unknown_provider_witness :
  generate mock_gateway hello (Some "unknown") VNone ∅ []
  = generate mock_gateway hello None VNone ∅ [].
Proof.
  apply (generate_unknown_provider mock_gateway "unknown" hello VNone ∅ []).
  reflexivity.
Defined.

(** C1 does not hold as stated: in mock mode, a call that names the
    unregistered provider ["unknown"] is answered by the default adapter. *)
Lemma unknown_provider_falls_back :
  providers mock_gateway !! "unknown" = None /\
  generate mock_gateway hello (Some "unknown") VNone ∅ []
  = (Ok (mock_generate hello), [EvGenerate "mock" hello ∅]).
Proof. split; vm_compute; reflexivity. Qed.

(** C7, as the code has it: on a gateway driven by its own methods, when
    no provider is named and no default provider is set or the configured
    default name is not a key of the provider mapping, [generate] raises
    [ValueError] at once: nothing is invoked, nothing is slept and no
    other registered provider is taken. *)
Theorem generate_without_default
    (net : string -> nat -> gmap string pyval -> pyresult LLMResponse)
    (gw : LLMGateway) (msgs : list LLMMessage)
    (rc : pyval) (kw : gmap string pyval) (t : list event) :
  reachable net gw ->
  default_provider gw = None \/
  providers gw !! default_provider_name (config gw) = None ->
  generate gw msgs None rc kw t
  = (Raise (ValueError "没有可用的LLM提供商"), t).
Proof.
  intros Hgw Hdef. apply generate_no_provider.
  destruct Hdef as [Hdef|Hname]; [done|].
  by rewrite (reachable_default_provider net gw Hgw).
Qed.

Lemma generate_without_default_witness :
  generate bare_gateway hello None VNone ∅ []
  = (Raise (ValueError "没有可用的LLM提供商"), []).
Proof.
  apply (generate_without_default refusing_net bare_gateway hello VNone ∅ []).
  - apply reach_initialize, reach_new.
  - right. reflexivity.
Defined.

(** C7 does not hold as stated: the error raised without a default
    provider is of class [ValueError], not [ConfigurationError]. *)
Lemma no_default_raises_value_error :
  exists err,
    default_provider bare_gateway = None /\
    generate bare_gateway hello None VNone ∅ [] = (Raise err, []) /\
    exn_class err = "ValueError" /\
    exn_class err <> "ConfigurationError".
Proof.
  eexists. split; [reflexivity|]. split; [reflexivity|].
  split; [reflexivity | discriminate].
Qed.

(** ** Empty input *)

(** C2, as the code has it: [generate] does not check the message
    sequence.  With a resolved provider and a retry count of at least 1
    the empty sequence is handed to the adapter, and if the adapter answers
    that answer is returned. *)
Theorem generate_empty_messages
    (gw : LLMGateway) (provider : option string) (rc : pyval)
    (kw : gmap string pyval) (t : list event) (a : LLMProvider) (n : Z) :
  select_provider gw provider = Ok a ->
  effective_retry_count gw rc = VInt n ->
  1 <= n ->
  let first_call := EvGenerate (get_provider_name a) [] kw in
  (exists t', snd (generate gw [] provider rc kw t) = t ++ first_call :: t') /\
  (forall r,
     provider_generate a (invocations (get_provider_name a) t) [] kw = Ok r ->
     generate gw [] provider rc kw t = (Ok r, t ++ [first_call])).
Proof.
  intros Hsel Heff Hn first_call.
  rewrite (generate_resolved _ _ _ _ _ _ _ _ Hsel Heff).
  destruct (Z.to_nat n) as [|todo] eqn:Htodo; [lia|].
  destruct (provider_generate a (invocations (get_provider_name a) t) [] kw)
    as [r|e] eqn:Hfirst.
  - rewrite (retry_loop_turn_return _ _ _ _ _ _ _ _ _ _ Hfirst). simpl.
    split; [by exists [] | by intros r' [= ->]].
  - split; [|done].
    rewrite (retry_loop_turn_raise _ _ _ _ _ _ _ _ _ _ Hfirst).
    change (attempt_events (get_provider_name a) [] kw (retry_delay_of gw) 0 1)
      with [first_call].
    destruct (0 =? n - 1); [by exists []|].
    destruct (retry_loop_appends a [] kw n (retry_delay_of gw) todo (0 + 1)
                (Some e) (t ++ [first_call])) as (evs & Hevs & _).
    exists evs.
    destruct (retry_loop a [] kw n (retry_delay_of gw) todo (0 + 1) (Some e)
                (t ++ [first_call])) as [[[[r|] le]|e'] t'];
      simpl in *; subst t'; by rewrite <- app_assoc.
Qed.

Lemma generate_empty_messages_witness :
  generate mock_gateway [] None VNone ∅ []
  = (Ok (mock_generate []), [EvGenerate "mock" [] ∅]).
Proof.
  apply (generate_empty_messages mock_gateway None VNone ∅ []
           (MockLLMProvider ∅) 3).
  - reflexivity.
  - reflexivity.
  - lia.
  - reflexivity.
Defined.

(** C2 does not hold as stated: in mock mode the empty sequence is passed
    to the adapter, whose reply is returned; no error is raised. *)
Lemma empty_messages_reach_adapter :
  generate mock_gateway [] None VNone ∅ []
  = (Ok (mkLLMResponse "我没有收到您的消息，请重新发送。" "mock-gpt-3.5" "mock"
           None None),
     [EvGenerate "mock" [] ∅]).
Proof. vm_compute. reflexivity. Qed.

(** ** The convenience call *)

(** Whatever happens, [generate] only appends events, and each adapter
    invocation among them carries the messages and options it was given. *)
Lemma generate_appends (gw : LLMGateway) msgs provider rc kw t :
  exists evs,
    snd (generate gw msgs provider rc kw t) = t ++ evs /\
    Forall (fun ev => forall name m k,
              ev = EvGenerate name m k -> m = msgs /\ k = kw) evs.
Proof.
  unfold generate.
  destruct (select_provider gw provider) as [a|e];
    [|exists []; by rewrite app_nil_r].
  destruct (py_index (effective_retry_count gw rc)) as [n|e];
    [|exists []; by rewrite app_nil_r].
  destruct (retry_loop_appends a msgs kw n (retry_delay_of gw) (Z.to_nat n) 0
              None t) as (evs & Hevs & Hall).
  exists evs. split.
  - unfold bind.
    destruct (retry_loop a msgs kw n (retry_delay_of gw) (Z.to_nat n) 0 None t)
      as [[[[r|] le]|e] t']; exact Hevs.
  - eapply Forall_impl; [exact Hall|].
    intros ev Hev name m k ->. specialize (Hev eq_refl).
    by injection Hev as _ -> ->.
Qed.

(** C6: [generate_simple] hands to [generate] a system message holding
    [system_prompt] exactly when [system_prompt] is not empty, followed by
    one user message holding [user_message]; every adapter invocation of
    the call receives that sequence; and what it returns is the [content]
    of the response of [generate]. *)
Theorem generate_simple_delegates
    (gw : LLMGateway) (system_prompt user_message : string)
    (provider : option string) (kw : gmap string pyval) (t : list event) :
  let messages :=
    (if decide (system_prompt = "") then []
     else [mkLLMMessage "system" system_prompt])
    ++ [mkLLMMessage "user" user_message] in
  simple_messages system_prompt user_message = messages /\
  simple_messages "" user_message = [mkLLMMessage "user" user_message] /\
  generate_simple gw system_prompt user_message provider kw t
  = (if bool_decide (is_Some (kw !! "messages") \/ is_Some (kw !! "provider"))
     then (Raise (TypeError "generate() got multiple values for argument"), t)
     else
       let '(res, t') :=
         generate gw messages provider (default VNone (kw !! "retry_count"))
           (delete "retry_count" kw) t in
       (match res with
        | Ok response => Ok (resp_content response)
        | Raise e => Raise e
        end, t')) /\
  exists evs,
    snd (generate_simple gw system_prompt user_message provider kw t)
    = t ++ evs /\
    Forall (fun ev => forall name m k, ev = EvGenerate name m k -> m = messages)
           evs.
Proof.
  intros messages.
  assert (simple_messages system_prompt user_message = messages) as Hmsgs.
  { unfold simple_messages. subst messages.
    destruct system_prompt; by case_decide. }
  split; [exact Hmsgs|]. split; [reflexivity|].
  unfold generate_simple. rewrite Hmsgs.
  change (match kw !! "retry_count" with Some v => v | None => VNone end)
    with (default VNone (kw !! "retry_count")).
  case_bool_decide as Hclash.
  - split; [reflexivity|]. exists []. split; [by rewrite app_nil_r | constructor].
  - destruct (generate_appends gw messages provider
                (default VNone (kw !! "retry_count"))
                (delete "retry_count" kw) t) as (evs & Hevs & Hall).
    unfold bind, ret.
    destruct (generate gw messages provider
                (default VNone (kw !! "retry_count"))
                (delete "retry_count" kw) t) as [[r|e] t'];
      simpl in Hevs; subst t'.
    + split; [reflexivity|]. exists evs. split; [reflexivity|].
      eapply Forall_impl; [exact Hall|]. intros ev Hev name m k Heq.
      by destruct (Hev name m k Heq).
    + split; [reflexivity|]. exists evs. split; [reflexivity|].
      eapply Forall_impl; [exact Hall|]. intros ev Hev name m k Heq.
      by destruct (Hev name m k Heq).
Qed.

(** ** The Claude request format *)

Lemma claude_convert_spec : forall msgs system_message conversation_messages,
  claude_convert msgs system_message conversation_messages
  = (match last (List.filter is_system msgs) with
     | Some msg => Some (content msg)
     | None => system_message
     end,
     conversation_messages ++
     List.map (fun msg => VDict (to_dict msg))
       (List.filter (fun msg => negb (is_system msg)) msgs)).
Proof.
  induction msgs as [|msg msgs IH]; intros s acc; simpl.
  - by rewrite app_nil_r.
  - unfold is_system in *.
    destruct (bool_decide (role msg = "system")); simpl; rewrite IH.
    + rewrite last_cons. by destruct (last (List.filter _ msgs)).
    + by rewrite <- app_assoc.
Qed.

Lemma claude_base_no_system (cfg : gmap string pyval) (conv : list pyval) :
  (<["messages" := VList conv]>
   (<["max_tokens" := config_get cfg "max_tokens" (VInt 2000)]>
    ({["model" := config_get cfg "model" (VStr "claude-3-haiku-20240307")]}
       : gmap string pyval))) !! "system" = None.
Proof.
  rewrite !lookup_insert_ne by done. by apply lookup_singleton_ne.
Qed.

(** C8, as the code has it: the [messages] entry of the Claude payload
    holds the messages of a role other than [system], in their order; the
    [system] entry is the content of the last system message when there is
    one and its content is not empty; otherwise the adapter sets no
    [system] entry, and the payload has one only if the keyword options
    bring it.  This payload is what the adapter posts. *)
Theorem claude_payload_system_extraction
    (cfg : gmap string pyval) (msgs : list LLMMessage)
    (kw : gmap string pyval) :
  kw !! "messages" = None ->
  let payload := claude_payload cfg msgs kw in
  payload !! "messages"
  = Some (VList (List.map (fun msg => VDict (to_dict msg))
                   (List.filter (fun msg => negb (is_system msg)) msgs))) /\
  payload !! "system"
  = match last (List.filter is_system msgs) with
    | Some msg =>
        if decide (content msg = "") then kw !! "system"
        else Some (VStr (content msg))
    | None => kw !! "system"
    end /\
  forall net n,
    validate_config cfg = true ->
    provider_generate (ClaudeProvider net cfg) n msgs kw
    = net "claude" n payload.
Proof.
  intros Hkw payload. subst payload. unfold claude_payload.
  rewrite claude_convert_spec. simpl app.
  set (conv := List.map _ _).
  set (base := kw ∪ _).
  assert (base !! "messages" = Some (VList conv)) as Hmsgs.
  { subst base. rewrite lookup_union_r by done. apply lookup_insert_eq. }
  assert (base !! "system" = kw !! "system") as Hsys.
  { subst base. apply lookup_union_l, claude_base_no_system. }
  split; [|split].
  - destruct (last (List.filter is_system msgs)) as [msg|]; [|done].
    destruct (str_truthy (content msg)); [|done].
    by rewrite lookup_insert_ne.
  - destruct (last (List.filter is_system msgs)) as [msg|]; [|done].
    destruct (content msg) as [|c s]; simpl; [done|].
    by rewrite lookup_insert_eq.
  - intros net n Hvalid. simpl. rewrite Hvalid. unfold claude_payload.
    by rewrite claude_convert_spec.
Qed.

Lemma claude_payload_system_extraction_witness :
  claude_payload api_section
    [mkLLMMessage "system" "be brief"; mkLLMMessage "user" "hi"] ∅
    !! "system" = Some (VStr "be brief").
Proof.
  apply (claude_payload_system_extraction api_section
           [mkLLMMessage "system" "be brief"; mkLLMMessage "user" "hi"] ∅).
  reflexivity.
Defined.

(** C8 does not hold as stated: a system message is present, its content
    is empty, and the payload has no [system] entry. *)
Lemma claude_empty_system_dropped :
  let msgs := [mkLLMMessage "system" ""; mkLLMMessage "user" "hi"] in
  List.existsb is_system msgs = true /\
  claude_payload api_section msgs ∅ !! "system" = None /\
  claude_payload api_section msgs ∅ !! "messages"
  = Some (VList [VDict (to_dict (mkLLMMessage "user" "hi"))]).
Proof. repeat split; vm_compute; reflexivity. Qed.

(** ** Masking of credentials *)

Ltac by_all_ascii c :=
  destruct c as [[] [] [] [] [] [] [] []];
  (split;
   [ intros H; vm_compute in H; first [discriminate H | auto]
   | intros [H|H]; first [discriminate H | reflexivity] ]).

Lemma lower_ascii_k c :
  lower_ascii c = "k"%char <-> (c = "k" \/ c = "K")%char.
Proof. by_all_ascii c. Qed.

Lemma lower_ascii_e c :
  lower_ascii c = "e"%char <-> (c = "e" \/ c = "E")%char.
Proof. by_all_ascii c. Qed.

Lemma lower_ascii_y c :
  lower_ascii c = "y"%char <-> (c = "y" \/ c = "Y")%char.
Proof. by_all_ascii c. Qed.

Lemma prefix_cons (a b : ascii) (s1 s2 : string) :
  String.prefix (String a s1) (String b s2)
  = if ascii_dec a b then String.prefix s1 s2 else false.
Proof. reflexivity. Qed.

Lemma N_of_ascii_eqb (c : ascii) (n : N) :
  (N_of_ascii c =? n)%N = true -> c = ascii_of_N n.
Proof.
  intros H. apply N.eqb_eq in H. rewrite <- H. symmetry.
  apply ascii_N_embedding.
Qed.

Lemma is_idot_spec c1 c2 :
  is_idot c1 c2 = true <-> c1 = "196"%char /\ c2 = "176"%char.
Proof.
  unfold is_idot. rewrite andb_true_iff. split.
  - intros [H1 H2].
    split; [exact (N_of_ascii_eqb c1 196 H1) | exact (N_of_ascii_eqb c2 176 H2)].
  - by intros [-> ->].
Qed.

Lemma is_kelvin_spec c1 c2 c3 :
  is_kelvin c1 c2 c3 = true <->
  c1 = "226"%char /\ c2 = "132"%char /\ c3 = "170"%char.
Proof.
  unfold is_kelvin. rewrite !andb_true_iff. split.
  - intros [[H1 H2] H3].
    split; [exact (N_of_ascii_eqb c1 226 H1)|].
    split; [exact (N_of_ascii_eqb c2 132 H2) | exact (N_of_ascii_eqb c3 170 H3)].
  - by intros (-> & -> & ->).
Qed.

Lemma lower_view_total (s : string) : lower_view s.
Proof.
  destruct s as [|c1 [|c2 r2]].
  - constructor.
  - apply view_plain; [reflexivity | intros r' [=]].
  - destruct (is_idot c1 c2) eqn:Hidot.
    + apply is_idot_spec in Hidot as [-> ->]. by apply (view_idot r2).
    + destruct r2 as [|c3 r3].
      * apply view_plain; [|intros r' [=]].
        simpl. by rewrite Hidot.
      * destruct (is_kelvin c1 c2 c3) eqn:Hk.
        -- apply is_kelvin_spec in Hk as (-> & -> & ->).
           by apply (view_kelvin r3).
        -- apply view_plain.
           ++ cbn [lower]. rewrite Hidot, Hk. reflexivity.
           ++ intros r' [= -> -> -> _]. discriminate Hk.
Qed.

Lemma prefix_empty (s : string) : String.prefix "" s = true.
Proof. by destruct s. Qed.

Lemma py_in_cons needle c h :
  py_in needle (String c h) = String.prefix needle (String c h) || py_in needle h.
Proof. reflexivity. Qed.

Lemma py_in_key_skip c h :
  c <> "k"%char -> py_in "key" (String c h) = py_in "key" h.
Proof.
  intros Hc. rewrite py_in_cons, prefix_cons.
  by destruct (ascii_dec "k" c) as [<-|_].
Qed.

Lemma prefix_y_lower (r : string) :
  String.prefix "y" (lower r) = true <->
  exists c post, r = String c post /\ (c = "y" \/ c = "Y")%char.
Proof.
  destruct (lower_view_total r) as [|r' Hl|r' Hl|c r' Hl _].
  - split; [discriminate|]. by intros (c & post & [=] & _).
  - rewrite Hl, prefix_cons. destruct (ascii_dec "y" "i") as [[=]|_].
    split; [discriminate|]. by intros (c & post & [= <- _] & [[=]|[=]]).
  - rewrite Hl, prefix_cons. destruct (ascii_dec "y" "k") as [[=]|_].
    split; [discriminate|]. by intros (c & post & [= <- _] & [[=]|[=]]).
  - rewrite Hl, prefix_cons.
    destruct (ascii_dec "y" (lower_ascii c)) as [E|NE].
    + rewrite prefix_empty. split; [|done]. intros _. exists c, r'.
      split; [done|]. by apply lower_ascii_y.
    + split; [discriminate|]. intros (c' & post & [= <- _] & Hc).
      apply lower_ascii_y in Hc. congruence.
Qed.

Lemma prefix_ey_lower (r : string) :
  String.prefix "ey" (lower r) = true <-> starts_ey r.
Proof.
  unfold starts_ey.
  destruct (lower_view_total r) as [|r' Hl|r' Hl|c r' Hl _].
  - split; [discriminate|]. by intros (c2 & c3 & post & [=] & _).
  - rewrite Hl, prefix_cons. destruct (ascii_dec "e" "i") as [[=]|_].
    split; [discriminate|].
    by intros (c2 & c3 & post & [= <- _] & [[=]|[=]] & _).
  - rewrite Hl, prefix_cons. destruct (ascii_dec "e" "k") as [[=]|_].
    split; [discriminate|].
    by intros (c2 & c3 & post & [= <- _] & [[=]|[=]] & _).
  - rewrite Hl, prefix_cons.
    destruct (ascii_dec "e" (lower_ascii c)) as [E|NE].
    + rewrite prefix_y_lower. symmetry in E. apply lower_ascii_e in E. split.
      * intros (c3 & post & -> & Hc3). by exists c, c3, post.
      * intros (c2 & c3 & post & [= <- ->] & _ & Hc3). by exists c3, post.
    + split; [discriminate|].
      intros (c2 & c3 & post & [= <- _] & Hc2 & _).
      apply lower_ascii_e in Hc2. congruence.
Qed.

Lemma starts_key_head c r :
  starts_key (String c r) -> (c = "k" \/ c = "K" \/ c = "226")%char.
Proof.
  intros (k1 & rest & Heq & [-> | [-> | ->]] & _); injection Heq as -> _; auto.
Qed.

Lemma starts_key_letter c r :
  (c = "k" \/ c = "K")%char ->
  starts_key (String c r) <-> starts_ey r.
Proof.
  intros Hc. split.
  - intros (k1 & rest & Heq & [-> | [-> | ->]] & Hey);
      injection Heq as -> Heq; subst; try done.
    destruct Hc as [[=]|[=]].
  - intros Hey. destruct Hc as [->| ->].
    + by exists "k", r; repeat split; auto.
    + by exists "K", r; repeat split; auto.
Qed.

Lemma starts_key_kelvin r :
  starts_key (String "226" (String "132" (String "170" r))) <-> starts_ey r.
Proof.
  split.
  - intros (k1 & rest & Heq & [-> | [-> | ->]] & Hey);
      injection Heq; intros; subst; try done.
  - intros Hey. exists kelvin_sign, r. repeat split; auto.
Qed.

Lemma contains_key_ci_starts (k : string) :
  contains_key_ci k <-> exists pre rest, k = pre +:+ rest /\ starts_key rest.
Proof.
  split.
  - intros (pre & k1 & c2 & c3 & post & -> & Hk1 & Hc2 & Hc3).
    exists pre, (k1 +:+ String c2 (String c3 post)). split; [done|].
    exists k1, (String c2 (String c3 post)). split; [done|]. split; [done|].
    by exists c2, c3, post.
  - intros (pre & rest & -> & k1 & rest' & -> & Hk1 & c2 & c3 & post & -> & Hc).
    by exists pre, k1, c2, c3, post.
Qed.

Lemma contains_key_ci_nil : ~ contains_key_ci "".
Proof.
  intros (pre & rest & Heq & Hs)%contains_key_ci_starts.
  destruct pre; [|discriminate Heq].
  change ("" +:+ rest) with rest in Heq. subst rest.
  destruct Hs as (k1 & rest & Heq & [-> | [-> | ->]] & _); discriminate Heq.
Qed.

Lemma contains_key_ci_cons c r :
  contains_key_ci (String c r) <->
  starts_key (String c r) \/ contains_key_ci r.
Proof.
  rewrite !contains_key_ci_starts. split.
  - intros (pre & rest & Heq & Hs). destruct pre as [|c0 pre].
    + left. change ("" +:+ rest) with rest in Heq. by subst rest.
    + right. injection Heq as -> ->. by exists pre, rest.
  - intros [Hs|(pre & rest & -> & Hs)].
    + by exists "", (String c r).
    + by exists (String c pre), rest.
Qed.

Lemma contains_key_ci_skip c r :
  c <> "k"%char -> c <> "K"%char -> c <> "226"%char ->
  contains_key_ci (String c r) <-> contains_key_ci r.
Proof.
  intros H1 H2 H3. rewrite contains_key_ci_cons. split; [|auto].
  intros [Hs|Hr]; [|done]. apply starts_key_head in Hs.
  by destruct Hs as [?|[?|?]].
Qed.

(** The test of the code and the words of the specification agree. *)
Lemma is_secret_key_length : forall n k,
  (String.length k <= n)%nat ->
  is_secret_key k = true <-> contains_key_ci k.
Proof.
  unfold is_secret_key.
  induction n as [|n IH]; intros k Hlen.
  { destruct k; [|simpl in Hlen; lia].
    split; [discriminate | by intros ?%contains_key_ci_nil]. }
  destruct (lower_view_total k) as [|r Hl|r Hl|c r Hl Hnk].
  - split; [discriminate | by intros ?%contains_key_ci_nil].
  - rewrite Hl, !py_in_key_skip by discriminate.
    rewrite !contains_key_ci_skip by discriminate.
    apply IH. simpl in Hlen. lia.
  - rewrite Hl, py_in_cons, prefix_cons.
    destruct (ascii_dec "k" "k") as [_|]; [|done].
    rewrite contains_key_ci_cons, starts_key_kelvin.
    rewrite !contains_key_ci_skip by discriminate.
    rewrite orb_true_iff, prefix_ey_lower, IH by (simpl in Hlen; lia).
    reflexivity.
  - rewrite Hl, py_in_cons, prefix_cons, contains_key_ci_cons, orb_true_iff.
    rewrite IH by (simpl in Hlen; lia).
    destruct (ascii_dec "k" (lower_ascii c)) as [E|NE].
    + symmetry in E. apply lower_ascii_k in E.
      by rewrite prefix_ey_lower, starts_key_letter.
    + split; [intros [[=]|?]; by right|].
      intros [Hs|?]; [|by right]. exfalso.
      destruct (starts_key_head _ _ Hs) as [->|[->| ->]].
      * by apply NE.
      * by apply NE.
      * destruct Hs as (k1 & rest & Heq & [-> | [-> | ->]] & _);
          injection Heq; intros; subst; try done; by apply (Hnk rest).
Qed.

Lemma is_secret_key_spec (k : string) :
  is_secret_key k = true <-> contains_key_ci k.
Proof. by apply (is_secret_key_length (String.length k)). Qed.

(** The key "api_Key" written with the Kelvin sign is a secret key, and
    "monkey" is one, while "max_tokens" is not. *)
Lemma is_secret_key_examples :
  is_secret_key ("api_" +:+ kelvin_sign +:+ "ey") = true /\
  is_secret_key "monkey" = true /\
  is_secret_key "max_tokens" = false.
Proof. repeat split; reflexivity. Qed.

Lemma mask_config_lookup (cfg : gmap string pyval) (k : string) :
  mask_config cfg !! k
  = (fun v => if is_secret_key k then VStr "***" else v) <$> cfg !! k.
Proof.
  unfold mask_config. rewrite map_lookup_imap. by destruct (cfg !! k).
Qed.

(** C9: for a registered provider name, [get_provider_info] returns the
    provider's name and a copy of its configuration in which the value of
    every key that contains "key", in whatever case, is replaced by "***"
    and every other value is kept; no key is added or lost.  The case of
    the letters is the one of [str.lower], for which the Kelvin sign
    U+212A is a capital of [k] as [K] is.  For a name that is not
    registered it returns the empty mapping. *)
Theorem get_provider_info_masks (gw : LLMGateway) (name : string) :
  match providers gw !! name with
  | Some p =>
      exists masked : gmap string pyval,
        get_provider_info gw name
        = <["config" := VDict masked]>
          {["name" := VStr (get_provider_name p)]} /\
        forall k,
          match provider_config p !! k with
          | Some v =>
              (contains_key_ci k -> masked !! k = Some (VStr "***")) /\
              (~ contains_key_ci k -> masked !! k = Some v)
          | None => masked !! k = None
          end
  | None => get_provider_info gw name = ∅
  end.
Proof.
  unfold get_provider_info.
  destruct (providers gw !! name) as [p|]; [|reflexivity].
  exists (mask_config (provider_config p)). split; [reflexivity|].
  intros k. rewrite mask_config_lookup.
  destruct (provider_config p !! k) as [v|]; simpl; [|reflexivity].
  destruct (is_secret_key k) eqn:Hk.
  - apply is_secret_key_spec in Hk. split; [done|]. by intros [].
  - split; [|done]. intros Hc. apply is_secret_key_spec in Hc. congruence.
Qed.


(** * Further properties of the gateway *)

Local Set Warnings "-clear-no-such-hyp".

(** ** The shape of every call *)

Section RetryShape.

Variable a : LLMProvider.
Variable msgs : list LLMMessage.
Variable kw : gmap string pyval.
Variable n : Z.
Variable d : Q.

(** Whatever the adapter answers, the loop leaves the events of some
    number of attempts, at most as many as [range] yields. *)
Lemma retry_loop_shape : forall todo attempt le t,
  exists m,
    (m <= todo)%nat /\
    snd (retry_loop a msgs kw n d todo attempt le t)
    = t ++ attempt_events (get_provider_name a) msgs kw d attempt m.
Proof.
  induction todo as [|todo IH]; intros attempt le t.
  - exists 0%nat. simpl. by rewrite app_nil_r.
  - destruct (provider_generate a (invocations (get_provider_name a) t) msgs kw)
      as [r|e] eqn:He.
    + rewrite (retry_loop_turn_return _ _ _ _ _ _ _ _ _ _ He).
      exists 1%nat. split; [lia | done].
    + rewrite (retry_loop_turn_raise _ _ _ _ _ _ _ _ _ _ He).
      destruct (attempt =? n - 1).
      * exists 1%nat. split; [lia | done].
      * destruct (IH (attempt + 1) (Some e)
                    (t ++ attempt_events (get_provider_name a) msgs kw d
                            attempt 1)) as (m & Hm & Hrun).
        exists (S m). split; [lia|].
        by rewrite Hrun, <- app_assoc, <- attempt_events_S.
Qed.

End RetryShape.

Lemma sleeps_attempt_events_from name msgs kw d m : forall k,
  (1 <= k)%nat ->
  sleeps (attempt_events name msgs kw d (Z.of_nat k) m)
  = List.map (fun k => (d * inject_Z (Z.of_nat k))%Q) (seq k m).
Proof.
  induction m as [|m IH]; intros k Hk; simpl; [done|].
  destruct (Z.ltb_spec 0 (Z.of_nat k)) as [_|]; [|lia]. simpl.
  f_equal. rewrite <- (IH (S k)) by lia. by rewrite Nat2Z.inj_succ.
Qed.

Lemma sleeps_attempt_events name msgs kw d m :
  sleeps (attempt_events name msgs kw d 0 m) = backoff_schedule d m.
Proof.
  unfold backoff_schedule. destruct m as [|m]; [done|]. simpl.
  rewrite Nat.sub_0_r. by apply (sleeps_attempt_events_from _ _ _ _ m 1%nat).
Qed.

Lemma generate_trace (gw : LLMGateway) msgs provider rc kw t a n :
  select_provider gw provider = Ok a ->
  effective_retry_count gw rc = VInt n ->
  snd (generate gw msgs provider rc kw t)
  = snd (retry_loop a msgs kw n (retry_delay_of gw) (Z.to_nat n) 0 None t).
Proof.
  intros Hsel Heff. rewrite (generate_resolved _ _ _ _ _ _ _ _ Hsel Heff).
  by destruct (retry_loop a msgs kw n (retry_delay_of gw) (Z.to_nat n) 0 None t)
    as [[[[r|] le]|e] t'].
Qed.

Lemma attempt_events_kinds_from name msgs kw d m : forall attempt,
  0 < attempt ->
  List.map is_generate (attempt_events name msgs kw d attempt m)
  = List.concat (List.repeat [false; true] m).
Proof.
  induction m as [|m IH]; intros attempt Hpos; simpl; [done|].
  destruct (Z.ltb_spec 0 attempt) as [_|]; [|lia]. simpl.
  by rewrite IH by lia.
Qed.

Lemma attempt_events_kinds name msgs kw d m :
  List.map is_generate (attempt_events name msgs kw d 0 m) = attempt_pattern m.
Proof.
  destruct m as [|m]; [done|]. simpl. f_equal.
  apply attempt_events_kinds_from. lia.
Qed.

(** X1: whatever the resolved adapter does, a call of [generate] with an
    integer retry count [n] makes some number [m] of attempts, at most
    [n], and extends the trace by their events in this order: the call of
    the adapter of the first attempt, then for each further attempt one
    sleep followed by one call of the adapter; nothing else is recorded,
    and each call of the adapter is a call of the resolved adapter with
    the messages and the options of the call. *)
Theorem generate_attempts_bounded
    (gw : LLMGateway) (msgs : list LLMMessage) (provider : option string)
    (rc : pyval) (kw : gmap string pyval) (t : list event) (a : LLMProvider)
    (n : Z) :
  select_provider gw provider = Ok a ->
  effective_retry_count gw rc = VInt n ->
  exists (m : nat) (t' : list event),
    snd (generate gw msgs provider rc kw t) = t ++ t' /\
    (m <= Z.to_nat n)%nat /\
    List.map is_generate t' = attempt_pattern m /\
    Forall (fun ev => is_generate ev = true ->
                      ev = EvGenerate (get_provider_name a) msgs kw) t'.
Proof.
  intros Hsel Heff.
  destruct (retry_loop_shape a msgs kw n (retry_delay_of gw) (Z.to_nat n) 0
              None t) as (m & Hm & Hrun).
  exists m.
  exists (attempt_events (get_provider_name a) msgs kw (retry_delay_of gw) 0 m).
  rewrite (generate_trace _ _ _ _ _ _ _ _ Hsel Heff), Hrun.
  rewrite attempt_events_kinds.
  repeat split; [exact Hm | apply attempt_events_args].
Qed.

Lemma generate_attempts_bounded_witness :
  exists (m : nat) (t' : list event),
    snd (generate flaky_gateway hello None VNone ∅ []) = [] ++ t' /\
    (m <= 3)%nat /\
    List.map is_generate t' = attempt_pattern m.
Proof.
  destruct (generate_attempts_bounded flaky_gateway hello None VNone ∅ []
              (OpenAIProvider flaky_net api_section) 3 eq_refl eq_refl)
    as (m & t' & Hrun & Hm & Hkinds & _).
  exists m, t'. split; [exact Hrun | split; [exact Hm | exact Hkinds]].
Defined.

(** ** The total backoff *)

Lemma total_slept_attempt_events name msgs kw d m : forall attempt,
  0 <= attempt ->
  (total_slept (attempt_events name msgs kw d attempt m) * 2
   == d * inject_Z (Z.of_nat m * (2 * attempt + Z.of_nat m - 1)))%Q.
Proof.
  induction m as [|m IH]; intros attempt Hattempt.
  - unfold total_slept. simpl.
    change (inject_Z (Z.of_nat 0 * (2 * attempt + Z.of_nat 0 - 1))) with 0%Q.
    ring.
  - assert (total_slept (attempt_events name msgs kw d attempt (S m))
            == d * inject_Z attempt
               + total_slept (attempt_events name msgs kw d (attempt + 1) m))%Q
      as ->.
    { unfold total_slept. simpl.
      destruct (Z.ltb_spec 0 attempt) as [_|Hle]; simpl; [reflexivity|].
      assert (attempt = 0) as -> by lia. ring. }
    rewrite Qmult_plus_distr_l, (IH (attempt + 1)) by lia.
    replace (Z.of_nat (S m) * (2 * attempt + Z.of_nat (S m) - 1))
      with (attempt * 2 + Z.of_nat m * (2 * (attempt + 1) + Z.of_nat m - 1))
      by lia.
    rewrite inject_Z_plus.
    generalize (inject_Z (Z.of_nat m * (2 * (attempt + 1) + Z.of_nat m - 1))).
    intros x. rewrite inject_Z_mult. change (inject_Z 2) with 2%Q.
    generalize (inject_Z attempt). intros y. ring.
Qed.

(** X2: the delay has an integer value [z], not negative, and [n] and
    [z * n] are at most 2^53, so that the products [retry_delay * attempt]
    of the loop are exact whether the delay is an [int] or a [float].
    When every one of the [n] attempts fails, the adapter has been called
    [n] times, the sleeps were for [retry_delay * 1], ...,
    [retry_delay * (n - 1)] in this order, and they add up to
    [z * n * (n - 1) / 2]. *)
Theorem generate_total_backoff
    (gw : LLMGateway) (msgs : list LLMMessage) (provider : option string)
    (rc : pyval) (kw : gmap string pyval) (t : list event) (a : LLMProvider)
    (n z : Z) :
  select_provider gw provider = Ok a ->
  effective_retry_count gw rc = VInt n ->
  1 <= n ->
  (retry_delay_of gw == inject_Z z)%Q ->
  0 <= z ->
  n <= 2 ^ 53 ->
  z * n <= 2 ^ 53 ->
  (forall i m k, is_raise (provider_generate a i m k)) ->
  exists e t',
    generate gw msgs provider rc kw t = (Raise e, t ++ t') /\
    adapter_calls t' = Z.to_nat n /\
    sleeps t' = backoff_schedule (retry_delay_of gw) (Z.to_nat n) /\
    (total_slept t' * 2 == inject_Z (z * n * (n - 1)))%Q.
Proof.
  intros Hsel Heff Hn Hz _ _ _ Hfail.
  destruct (Z.to_nat n) as [|todo] eqn:Htodo; [lia|].
  destruct (provider_generate a (invocations (get_provider_name a) t + todo)
              msgs kw) as [r|e_last] eqn:Hlast.
  { specialize (Hfail (invocations (get_provider_name a) t + todo)%nat msgs kw).
    by rewrite Hlast in Hfail. }
  eexists.
  exists (attempt_events (get_provider_name a) msgs kw (retry_delay_of gw) 0
            (S todo)).
  split; [|split; [|split]].
  - rewrite (generate_resolved _ _ _ _ _ _ _ _ Hsel Heff), Htodo.
    rewrite (retry_loop_exhausted a msgs kw n (retry_delay_of gw) todo 0 None t
               e_last); [reflexivity | lia | intros; apply Hfail | exact Hlast].
  - apply attempt_events_calls.
  - apply sleeps_attempt_events.
  - rewrite total_slept_attempt_events by lia.
    replace (Z.of_nat (S todo) * (2 * 0 + Z.of_nat (S todo) - 1))
      with (n * (n - 1)) by lia.
    rewrite Hz, <- inject_Z_mult. by rewrite Z.mul_assoc.
Qed.

Lemma generate_total_backoff_witness :
  exists e t',
    generate real_gateway hello None (VInt 4) ∅ [] = (Raise e, [] ++ t') /\
    adapter_calls t' = 4%nat /\
    sleeps t' = [1 * 1; 1 * 2; 1 * 3]%Q /\
    (total_slept t' * 2 == 12)%Q.
Proof.
  apply (generate_total_backoff real_gateway hello None (VInt 4) ∅ []
           (OpenAIProvider refusing_net api_section) 4 1).
  - reflexivity.
  - reflexivity.
  - lia.
  - reflexivity.
  - lia.
  - lia.
  - lia.
  - intros i m k. vm_compute. exact I.
Defined.

(** ** Incomplete provider configuration *)

Lemma incomplete_config_raises net (cfg : gmap string pyval) i m k :
  validate_config cfg = false ->
  provider_generate (OpenAIProvider net cfg) i m k
  = Raise (ValueError "OpenAI配置不完整") /\
  provider_generate (ClaudeProvider net cfg) i m k
  = Raise (ValueError "Claude配置不完整") /\
  provider_generate (KimiProvider net cfg) i m k
  = Raise (ValueError "Kimi配置不完整").
Proof. intros Hcfg. simpl. by rewrite Hcfg. Qed.

(** X3: a provider whose configuration lacks one of [api_key], [api_base]
    and [model] fails every call with a [ValueError], whatever the
    upstream would answer; the gateway retries that failure like any
    other, [n] times, and then raises its generic [Exception] with the
    text of the [ValueError]. *)
Theorem generate_incomplete_config
    (net : string -> nat -> gmap string pyval -> pyresult LLMResponse)
    (gw : LLMGateway) (msgs : list LLMMessage) (provider : option string)
    (rc : pyval) (kw : gmap string pyval) (t : list event)
    (cfg : gmap string pyval) (who : string) (a : LLMProvider) (n : Z) :
  validate_config cfg = false ->
  (who = "OpenAI" /\ a = OpenAIProvider net cfg) \/
  (who = "Claude" /\ a = ClaudeProvider net cfg) \/
  (who = "Kimi" /\ a = KimiProvider net cfg) ->
  select_provider gw provider = Ok a ->
  effective_retry_count gw rc = VInt n ->
  1 <= n ->
  exists t',
    generate gw msgs provider rc kw t
    = (Raise (Exception ("LLM调用失败，已重试" +:+ pretty n +:+ "次: " +:+
                         who +:+ "配置不完整")), t ++ t') /\
    adapter_calls t' = Z.to_nat n.
Proof.
  intros Hcfg Hwho Hsel Heff Hn.
  assert (forall i, provider_generate a i msgs kw
                    = Raise (ValueError (who +:+ "配置不完整"))) as Hraise.
  { intros i.
    destruct (incomplete_config_raises net cfg i msgs kw Hcfg) as (H1 & H2 & H3).
    destruct Hwho as [[-> ->]|[[-> ->]|[-> ->]]]; assumption. }
  destruct (Z.to_nat n) as [|todo] eqn:Htodo; [lia|].
  exists (attempt_events (get_provider_name a) msgs kw (retry_delay_of gw) 0
            (S todo)).
  split; [|apply attempt_events_calls].
  rewrite (generate_resolved _ _ _ _ _ _ _ _ Hsel Heff), Htodo.
  rewrite (retry_loop_exhausted a msgs kw n (retry_delay_of gw) todo 0 None t
             (ValueError (who +:+ "配置不完整")));
    [reflexivity | lia | | apply Hraise].
  intros i _. by rewrite Hraise.
Qed.

Lemma generate_incomplete_config_witness :
  exists t',
    generate
      (initialize flaky_net
         (new_gateway (mkConfig None None None false
                         (Some {["api_key" := VStr "sk-test"]}) None None)))
      hello None VNone ∅ []
    = (Raise (Exception "LLM调用失败，已重试3次: OpenAI配置不完整"), [] ++ t') /\
    adapter_calls t' = 3%nat.
Proof.
  apply (generate_incomplete_config flaky_net _ hello None VNone ∅ []
           {["api_key" := VStr "sk-test"]} "OpenAI"
           (OpenAIProvider flaky_net {["api_key" := VStr "sk-test"]}) 3).
  - reflexivity.
  - left. split; reflexivity.
  - reflexivity.
  - reflexivity.
  - lia.
Defined.

(** ** The OpenAI and Kimi request formats *)

(** X4: in the OpenAI and Kimi payloads every keyword option is present
    with its own value, before any setting of the configuration; the
    [messages] entry lists all the messages of the call in their order,
    the system ones included; and Kimi's [stream] is [False] unless an
    option sets it. *)
Theorem openai_kimi_payload_contents
    (cfg : gmap string pyval) (msgs : list LLMMessage)
    (kw : gmap string pyval) :
  kw !! "messages" = None ->
  let turns := VList (List.map (fun msg => VDict (to_dict msg)) msgs) in
  openai_payload cfg msgs kw !! "messages" = Some turns /\
  kimi_payload cfg msgs kw !! "messages" = Some turns /\
  (forall k v, kw !! k = Some v ->
     openai_payload cfg msgs kw !! k = Some v /\
     kimi_payload cfg msgs kw !! k = Some v) /\
  kimi_payload cfg msgs kw !! "stream"
  = Some (match kw !! "stream" with Some v => v | None => VBool false end).
Proof.
  intros Hkw turns. unfold openai_payload, kimi_payload.
  repeat split.
  - rewrite lookup_union_r by done.
    rewrite !lookup_insert_ne by done. apply lookup_insert_eq.
  - rewrite lookup_union_r by done.
    rewrite !lookup_insert_ne by done. apply lookup_insert_eq.
  - by apply lookup_union_Some_l.
  - by apply lookup_union_Some_l.
  - rewrite lookup_union. destruct (kw !! "stream") as [v|]; simpl.
    + by rewrite lookup_insert_eq.
    + by rewrite lookup_insert_eq.
Qed.

Lemma openai_kimi_payload_contents_witness :
  openai_payload api_section
    [mkLLMMessage "system" "be brief"; mkLLMMessage "user" "hi"]
    {["temperature" := VInt 0]} !! "messages"
  = Some (VList [VDict (to_dict (mkLLMMessage "system" "be brief"));
                 VDict (to_dict (mkLLMMessage "user" "hi"))]).
Proof.
  destruct (openai_kimi_payload_contents api_section
              [mkLLMMessage "system" "be brief"; mkLLMMessage "user" "hi"]
              {["temperature" := VInt 0]}) as (Hmsgs & _).
  - reflexivity.
  - exact Hmsgs.
Defined.

(** ** The mock provider *)

(** X5: the reply of the mock provider is decided by the last message of
    role [user] alone: the call answers as it would to that one message.
    Without any user message it is the fixed reply of model
    [mock-gpt-3.5], without usage. *)
Theorem mock_generate_last_user (msgs : list LLMMessage) :
  match last (List.filter is_user msgs) with
  | Some msg => mock_generate msgs = mock_generate [msg]
  | None =>
      mock_generate msgs
      = mkLLMResponse "我没有收到您的消息，请重新发送。" "mock-gpt-3.5" "mock"
          None None
  end.
Proof.
  unfold mock_generate. fold is_user.
  destruct (last (List.filter is_user msgs)) as [msg|] eqn:Hlast; [|done].
  assert (is_user msg = true) as Huser.
  { apply last_Some_elem_of, list_elem_of_In, List.filter_In in Hlast.
    by destruct Hlast. }
  simpl. by rewrite Huser.
Qed.

(** ** Registration *)

Lemma mock_mode_providers net (cfg : GatewayConfig) :
  cfg_mock_llm cfg = true ->
  providers (initialize net (new_gateway cfg))
  = <["mock" := MockLLMProvider ∅]>
    (<["kimi" := MockLLMProvider ∅]>
    (<["claude" := MockLLMProvider ∅]>
    (<["openai" := MockLLMProvider ∅]> ∅))).
Proof.
  intros Hmock. unfold initialize, _register_providers. simpl.
  rewrite Hmock. by destruct (_ !! default_provider_name cfg).
Qed.

Lemma mock_mode_lookup net (cfg : GatewayConfig) (name : string) :
  cfg_mock_llm cfg = true ->
  providers (initialize net (new_gateway cfg)) !! name
  = if decide (name ∈ mock_names) then Some (MockLLMProvider ∅) else None.
Proof.
  intros Hmock. rewrite (mock_mode_providers net cfg Hmock).
  unfold mock_names. rewrite !lookup_insert, lookup_empty.
  repeat case_decide; subst; try done; set_solver.
Qed.

(** X6: in mock mode, whatever provider sections the configuration holds,
    [initialize] registers the one mock provider under the four names
    [openai], [claude], [kimi] and [mock], and nothing else; a call that
    names one of them, with a retry count of at least 1, is answered by
    the mock at the first attempt, without any sleep; and the information
    on each of the four names is that of the mock, with an empty
    configuration. *)
Theorem mock_mode_gateway
    (net : string -> nat -> gmap string pyval -> pyresult LLMResponse)
    (cfg : GatewayConfig) (name : string) (msgs : list LLMMessage)
    (rc : pyval) (kw : gmap string pyval) (t : list event) (n : Z) :
  cfg_mock_llm cfg = true ->
  let gw := initialize net (new_gateway cfg) in
  name ∈ mock_names ->
  effective_retry_count gw rc = VInt n ->
  1 <= n ->
  get_available_providers gw = mock_names /\
  generate gw msgs (Some name) rc kw t
  = (Ok (mock_generate msgs), t ++ [EvGenerate "mock" msgs kw]) /\
  get_provider_info gw name
  = <["config" := VDict ∅]> {["name" := VStr "mock"]}.
Proof.
  intros Hmock gw Hname Heff Hn.
  pose proof (mock_mode_lookup net cfg name Hmock) as Hlookup.
  rewrite decide_True in Hlookup by done. fold gw in Hlookup.
  split; [|split].
  - unfold get_available_providers. subst gw.
    rewrite (mock_mode_providers net cfg Hmock). unfold mock_names.
    rewrite !dom_insert_L, dom_empty_L. set_solver.
  - assert (select_provider gw (Some name) = Ok (MockLLMProvider ∅)) as Hsel.
    { unfold select_provider. rewrite Hlookup.
      destruct name; [|done]. exfalso. revert Hname. unfold mock_names.
      set_solver. }
    rewrite (generate_resolved _ _ _ _ _ _ _ _ Hsel Heff).
    destruct (Z.to_nat n) as [|todo] eqn:Htodo; [lia|].
    by rewrite (retry_loop_turn_return (MockLLMProvider ∅) msgs kw n
                  (retry_delay_of gw) todo 0 None t (mock_generate msgs)).
  - unfold get_provider_info. rewrite Hlookup. simpl.
    unfold mask_config. by rewrite map_imap_empty.
Qed.

Lemma mock_mode_gateway_witness :
  generate mock_gateway hello (Some "claude") VNone ∅ []
  = (Ok (mock_generate hello), [] ++ [EvGenerate "mock" hello ∅]).
Proof.
  apply (mock_mode_gateway refusing_net
           (mkConfig (Some "mock") None None true None None None)
           "claude" hello VNone ∅ [] 3).
  - reflexivity.
  - unfold mock_names. set_solver.
  - reflexivity.
  - lia.
Defined.

Lemma real_mode_providers net (cfg : GatewayConfig) :
  cfg_mock_llm cfg = false ->
  providers (initialize net (new_gateway cfg))
  = register_if "kimi" (KimiProvider net) (cfg_kimi cfg)
      (register_if "claude" (ClaudeProvider net) (cfg_claude cfg)
         (register_if "openai" (OpenAIProvider net) (cfg_openai cfg) ∅)).
Proof.
  intros Hmock. unfold initialize, _register_providers. simpl.
  rewrite Hmock. by destruct (_ !! default_provider_name cfg).
Qed.

(** X7: in real mode [initialize] registers the OpenAI, Claude and Kimi
    providers, each under its own name and with its own section, exactly
    when that section is present in the configuration and is not empty;
    no other name is registered, the mock in particular. *)
Theorem real_mode_registration
    (net : string -> nat -> gmap string pyval -> pyresult LLMResponse)
    (cfg : GatewayConfig) :
  cfg_mock_llm cfg = false ->
  let gw := initialize net (new_gateway cfg) in
  providers gw !! "openai"
  = OpenAIProvider net <$> section_truthy (cfg_openai cfg) /\
  providers gw !! "claude"
  = ClaudeProvider net <$> section_truthy (cfg_claude cfg) /\
  providers gw !! "kimi"
  = KimiProvider net <$> section_truthy (cfg_kimi cfg) /\
  forall name,
    name <> "openai" -> name <> "claude" -> name <> "kimi" ->
    providers gw !! name = None.
Proof.
  intros Hmock gw. subst gw. rewrite (real_mode_providers net cfg Hmock).
  unfold register_if.
  destruct (section_truthy (cfg_kimi cfg));
    destruct (section_truthy (cfg_claude cfg));
    destruct (section_truthy (cfg_openai cfg)); simpl;
    repeat split; try (intros name H1 H2 H3);
    rewrite ?lookup_insert_eq, ?lookup_insert_ne, ?lookup_empty by done;
    reflexivity.
Qed.

Lemma real_mode_registration_witness :
  providers real_gateway !! "kimi" = None /\
  providers real_gateway !! "openai"
  = Some (OpenAIProvider refusing_net api_section).
Proof.
  destruct (real_mode_registration refusing_net
              (mkConfig None None None false
                 (Some api_section) (Some api_section) None) eq_refl)
    as (Hopenai & _ & Hkimi & _).
  split; [exact Hkimi | exact Hopenai].
Defined.

(** ** The life cycle *)

Lemma register_providers_stable net (gw : LLMGateway) d :
  _register_providers net
    (mkGateway (providers (_register_providers net gw)) (config gw) d)
  = mkGateway (providers (_register_providers net gw)) (config gw) d.
Proof.
  unfold _register_providers, register_if. simpl. f_equal.
  destruct (cfg_mock_llm (config gw)).
  - apply map_eq. intros i. rewrite !lookup_insert.
    repeat case_decide; congruence.
  - destruct (section_truthy (cfg_kimi (config gw)));
      destruct (section_truthy (cfg_claude (config gw)));
      destruct (section_truthy (cfg_openai (config gw)));
      apply map_eq; intros i; rewrite ?lookup_insert;
      repeat case_decide; congruence.
Qed.

(** X8: [initialize] is idempotent: on any gateway, a second
    [initialize] leaves the providers, the configuration and the default
    provider as the first one set them. *)
Theorem initialize_idempotent
    (net : string -> nat -> gmap string pyval -> pyresult LLMResponse)
    (gw : LLMGateway) :
  initialize net (initialize net gw) = initialize net gw.
Proof.
  assert (_register_providers net (_register_providers net gw)
          = _register_providers net gw) as Hreg
    by exact (register_providers_stable net gw (default_provider gw)).
  unfold initialize.
  change (config (_register_providers net gw)) with (config gw).
  destruct (providers (_register_providers net gw)
              !! default_provider_name (config gw)) as [p|] eqn:Hp.
  - rewrite register_providers_stable. cbn [providers config].
    by rewrite Hp.
  - rewrite Hreg.
    change (config (_register_providers net gw)) with (config gw).
    by rewrite Hp.
Qed.

(** X9: after [shutdown] no provider is left: every call of [generate],
    whatever provider it names, raises [ValueError] without invoking an
    adapter; the list of the available providers is empty, and so is the
    information on every name. *)
Theorem generate_after_shutdown
    (gw : LLMGateway) (msgs : list LLMMessage) (provider : option string)
    (rc : pyval) (kw : gmap string pyval) (t : list event) (name : string) :
  generate (shutdown gw) msgs provider rc kw t
  = (Raise (ValueError "没有可用的LLM提供商"), t) /\
  get_available_providers (shutdown gw) = ∅ /\
  get_provider_info (shutdown gw) name = ∅.
Proof.
  split; [|split].
  - unfold generate, select_provider, shutdown. simpl.
    destruct provider as [p|]; [|done].
    by destruct (str_truthy p); rewrite ?lookup_empty.
  - unfold get_available_providers, shutdown. simpl. apply dom_empty_L.
  - unfold get_provider_info, shutdown. simpl. by rewrite lookup_empty.
Qed.

(** ** The gateway made from the settings *)

Lemma section_truthy_nonempty (c : gmap string pyval) k v :
  c !! k = Some v -> section_truthy (Some c) = Some c.
Proof.
  intros Hk. unfold section_truthy.
  destruct (Nat.eqb_spec (size c) 0) as [Hsize|]; [|done].
  apply map_size_empty_iff in Hsize. subst c. by rewrite lookup_empty in Hk.
Qed.

Lemma settings_sections_complete (settings : Settings) (k : string) :
  validate_config (openai_section settings k) = true /\
  validate_config (claude_section settings k) = true /\
  validate_config (kimi_section settings k) = true.
Proof.
  unfold validate_config, openai_section, claude_section, kimi_section.
  repeat split; cbn [forallb];
    (rewrite !bool_decide_eq_true_2; [reflexivity | ..]);
    rewrite ?lookup_insert_ne by done;
    first [ by rewrite lookup_insert_eq | by rewrite lookup_singleton_eq ].
Qed.

Lemma settings_real_providers net (mock_env : option string)
    (settings : Settings) :
  lower (default "false" mock_env) <> "true" ->
  providers (initialize net (create_llm_gateway mock_env settings))
  = (match key_truthy (KIMI_API_KEY settings) with
     | Some k => <["kimi" := KimiProvider net (kimi_section settings k)]>
     | None => id
     end)
    ((match key_truthy (CLAUDE_API_KEY settings) with
      | Some k => <["claude" := ClaudeProvider net (claude_section settings k)]>
      | None => id
      end)
     ((match key_truthy (OPENAI_API_KEY settings) with
       | Some k => <["openai" := OpenAIProvider net (openai_section settings k)]>
       | None => id
       end) ∅)).
Proof.
  intros Hreal. unfold create_llm_gateway.
  change (match mock_env with Some v => v | None => "false" end)
    with (default "false" mock_env).
  rewrite bool_decide_eq_false_2 by done.
  rewrite real_mode_providers by done. simpl. unfold register_if.
  destruct (key_truthy (KIMI_API_KEY settings)) as [k3|];
    destruct (key_truthy (CLAUDE_API_KEY settings)) as [k2|];
    destruct (key_truthy (OPENAI_API_KEY settings)) as [k1|]; simpl;
    rewrite ?(section_truthy_nonempty (openai_section settings k1)
                "timeout" (VInt (LLM_TIMEOUT settings))),
            ?(section_truthy_nonempty (claude_section settings k2)
                "timeout" (VInt (LLM_TIMEOUT settings))),
            ?(section_truthy_nonempty (kimi_section settings k3)
                "timeout" (VInt (LLM_TIMEOUT settings)));
    try reflexivity; apply lookup_insert_eq.
Qed.

(** X10: the gateway that [create_llm_gateway] makes from the settings in
    real mode, once initialized, has the OpenAI, Claude and Kimi providers
    exactly for the API keys that are set and not empty; every provider it
    has passes [validate_config]; and its retry policy is the one of the
    settings. *)
Theorem create_llm_gateway_real
    (net : string -> nat -> gmap string pyval -> pyresult LLMResponse)
    (mock_env : option string) (settings : Settings) :
  lower (default "false" mock_env) <> "true" ->
  let gw := initialize net (create_llm_gateway mock_env settings) in
  providers gw !! "openai"
  = (fun k => OpenAIProvider net (openai_section settings k))
      <$> key_truthy (OPENAI_API_KEY settings) /\
  providers gw !! "claude"
  = (fun k => ClaudeProvider net (claude_section settings k))
      <$> key_truthy (CLAUDE_API_KEY settings) /\
  providers gw !! "kimi"
  = (fun k => KimiProvider net (kimi_section settings k))
      <$> key_truthy (KIMI_API_KEY settings) /\
  (forall name p,
     providers gw !! name = Some p ->
     validate_config (provider_config p) = true) /\
  effective_retry_count gw VNone = VInt (LLM_RETRY_COUNT settings) /\
  retry_delay_of gw = LLM_RETRY_DELAY settings.
Proof.
  intros Hreal gw. subst gw.
  rewrite (settings_real_providers net mock_env settings Hreal).
  assert (config (initialize net (create_llm_gateway mock_env settings))
          = config (create_llm_gateway mock_env settings)) as Hcfg.
  { unfold initialize. by destruct (_ !! _). }
  unfold effective_retry_count, retry_delay_of. rewrite Hcfg.
  destruct (key_truthy (KIMI_API_KEY settings)) as [k3|];
    destruct (key_truthy (CLAUDE_API_KEY settings)) as [k2|];
    destruct (key_truthy (OPENAI_API_KEY settings)) as [k1|]; simpl;
    (repeat split;
     [ by rewrite ?lookup_insert_eq, ?lookup_insert_ne, ?lookup_empty by done ..
     | intros name p;
       rewrite ?lookup_insert_Some, lookup_empty;
       intros Hp;
       repeat (destruct Hp as [[_ <-]|[_ Hp]]); try done;
       apply settings_sections_complete ]).
Qed.

Lemma create_llm_gateway_real_witness :
  let settings :=
    mkSettings "claude" 3 1 30 None "https://api.openai.com/v1"
      "gpt-3.5-turbo" 2000 (7 # 10) (Some "sk-ant") "https://api.anthropic.com"
      "claude-3-haiku-20240307" 2000 (Some "") "https://api.moonshot.cn"
      "moonshot-v1-8k" 2000 (7 # 10) in
  let gw := initialize refusing_net (create_llm_gateway (Some "no") settings) in
  providers gw !! "openai" = None /\
  providers gw !! "claude"
  = Some (ClaudeProvider refusing_net (claude_section settings "sk-ant")) /\
  providers gw !! "kimi" = None.
Proof.
  intros settings gw.
  destruct (create_llm_gateway_real refusing_net (Some "no") settings)
    as (H1 & H2 & H3 & _).
  - vm_compute. discriminate.
  - split; [exact H1 | split; [exact H2 | exact H3]].
Defined.

(** X11: when the environment variable [MOCK_LLM] is the word "true" in
    any case, the gateway made from the settings is in mock mode whatever
    API keys are set: once initialized it has the mock provider under
    [openai], [claude], [kimi] and [mock], and no real provider. *)
Theorem create_llm_gateway_mock
    (net : string -> nat -> gmap string pyval -> pyresult LLMResponse)
    (mock_env : string) (settings : Settings) (name : string) :
  lower mock_env = "true" ->
  providers (initialize net (create_llm_gateway (Some mock_env) settings))
    !! name
  = if decide (name ∈ mock_names) then Some (MockLLMProvider ∅) else None.
Proof.
  intros Hmock. apply mock_mode_lookup.
  unfold create_llm_gateway. simpl. by rewrite bool_decide_eq_true_2.
Qed.

Lemma create_llm_gateway_mock_witness :
  providers
    (initialize refusing_net
       (create_llm_gateway (Some "True")
          (mkSettings "openai" 3 1 30 (Some "sk-live")
             "https://api.openai.com/v1" "gpt-3.5-turbo" 2000 (7 # 10)
             None "https://api.anthropic.com" "claude-3-haiku-20240307" 2000
             None "https://api.moonshot.cn" "moonshot-v1-8k" 2000 (7 # 10))))
    !! "openai"
  = Some (MockLLMProvider ∅).
Proof.
  rewrite (create_llm_gateway_mock refusing_net "True" _ "openai");
    reflexivity.
Defined.

Lemma mask_config_insert (cfg : gmap string pyval) k v :
  mask_config (<[k := v]> cfg)
  = <[k := if is_secret_key k then VStr "***" else v]> (mask_config cfg).
Proof. unfold mask_config. by rewrite map_imap_insert. Qed.

(** X12: for a provider made from the settings, [get_provider_info] shows
    the section of the settings with the API key replaced by "***" and
    every other entry as it is: base URL, model, token limit, temperature
    and timeout. *)
Theorem get_provider_info_from_settings
    (net : string -> nat -> gmap string pyval -> pyresult LLMResponse)
    (mock_env : option string) (settings : Settings) (k : string) :
  lower (default "false" mock_env) <> "true" ->
  key_truthy (OPENAI_API_KEY settings) = Some k ->
  get_provider_info (initialize net (create_llm_gateway mock_env settings))
    "openai"
  = <["config" := VDict (<["api_key" := VStr "***"]>
                         (openai_section settings k))]>
    {["name" := VStr "openai"]}.
Proof.
  intros Hreal Hkey. unfold get_provider_info.
  rewrite (settings_real_providers net mock_env settings Hreal), Hkey.
  assert (forall ps : gmap string LLMProvider,
            (<["openai" := OpenAIProvider net (openai_section settings k)]> ps)
              !! "openai"
            = Some (OpenAIProvider net (openai_section settings k))) as Hin
    by (intros; apply lookup_insert_eq).
  destruct (key_truthy (KIMI_API_KEY settings));
    destruct (key_truthy (CLAUDE_API_KEY settings));
    cbv [id]; rewrite ?lookup_insert_ne by done; rewrite Hin; simpl;
    do 2 f_equal; unfold openai_section;
    rewrite <- insert_empty, !mask_config_insert;
    unfold mask_config; rewrite map_imap_empty;
    apply map_eq; intros i; rewrite !lookup_insert;
    repeat case_decide; subst; done.
Qed.

Lemma get_provider_info_from_settings_witness :
  let settings :=
    mkSettings "openai" 3 1 30 (Some "sk-live") "https://api.openai.com/v1"
      "gpt-3.5-turbo" 2000 (7 # 10) None "https://api.anthropic.com"
      "claude-3-haiku-20240307" 2000 None "https://api.moonshot.cn"
      "moonshot-v1-8k" 2000 (7 # 10) in
  get_provider_info
    (initialize refusing_net (create_llm_gateway None settings)) "openai"
  = <["config" := VDict (<["api_key" := VStr "***"]>
                         (openai_section settings "sk-live"))]>
    {["name" := VStr "openai"]}.
Proof.
  intros settings.
  apply (get_provider_info_from_settings refusing_net None settings "sk-live").
  - vm_compute. discriminate.
  - reflexivity.
Defined.

(** ** Keywords of the convenience call *)

(** X13: a keyword [retry_count] given to [generate_simple] sets the retry
    count of the call and does not reach the adapter: with a resolved
    provider, the adapter is invoked at most that many times, and the
    options it receives are the keywords of the call without
    [retry_count]. *)
Theorem generate_simple_retry_keyword
    (gw : LLMGateway) (system_prompt user_message : string)
    (provider : option string) (kw : gmap string pyval) (t : list event)
    (a : LLMProvider) (n : Z) :
  kw !! "messages" = None ->
  kw !! "provider" = None ->
  kw !! "retry_count" = Some (VInt n) ->
  select_provider gw provider = Ok a ->
  exists evs,
    snd (generate_simple gw system_prompt user_message provider kw t)
    = t ++ evs /\
    (adapter_calls evs <= Z.to_nat n)%nat /\
    Forall (fun ev => forall name m k,
              ev = EvGenerate name m k ->
              k = delete "retry_count" kw /\ k !! "retry_count" = None) evs.
Proof.
  intros Hm Hp Hrc Hsel. unfold generate_simple.
  rewrite bool_decide_eq_false_2, Hrc.
  2: { rewrite Hm, Hp. intros [[? [=]]|[? [=]]]. }
  set (msgs := simple_messages system_prompt user_message).
  set (kw' := delete "retry_count" kw).
  destruct (retry_loop_shape a msgs kw' n (retry_delay_of gw) (Z.to_nat n) 0
              None t) as (m & Hle & Hrun).
  exists (attempt_events (get_provider_name a) msgs kw' (retry_delay_of gw) 0 m).
  assert (snd (generate gw msgs provider (VInt n) kw' t)
          = t ++ attempt_events (get_provider_name a) msgs kw'
                   (retry_delay_of gw) 0 m) as Htrace
    by (by rewrite (generate_trace gw msgs provider (VInt n) kw' t a n Hsel)).
  split; [|split].
  - unfold bind, ret.
    by destruct (generate gw msgs provider (VInt n) kw' t) as [[r|e] t'].
  - by rewrite attempt_events_calls.
  - eapply Forall_impl; [apply attempt_events_args|].
    intros ev Hev name m' k ->. specialize (Hev eq_refl).
    injection Hev as _ _ ->. split; [done|]. apply lookup_delete_eq.
Qed.

Lemma generate_simple_retry_keyword_witness :
  exists evs,
    snd (generate_simple real_gateway "" "hi" None
           {["retry_count" := VInt 1]} [])
    = [] ++ evs /\
    (adapter_calls evs <= 1)%nat.
Proof.
  destruct (generate_simple_retry_keyword real_gateway "" "hi" None
              {["retry_count" := VInt 1]} []
              (OpenAIProvider refusing_net api_section) 1)
    as (evs & Hrun & Hcalls & _).
  - reflexivity.
  - reflexivity.
  - reflexivity.
  - reflexivity.
  - exists evs. split; [exact Hrun | exact Hcalls].
Defined.


(** * The conversation manager *)

Lemma py_slice_from_suffix {A} (k : Z) (l : list A) :
  0 < k ->
  py_slice_from (- k) l = drop (length l - Z.to_nat k) l.
Proof.
  intros Hk. unfold py_slice_from.
  destruct (Z.ltb_spec (- k) 0) as [_|]; [|lia]. f_equal. lia.
Qed.

Lemma add_message_history (cm : ConversationManager) session_id message :
  let appended := get_conversation_history cm session_id None ++ [message] in
  conversations (add_message cm session_id message)
  = <[session_id :=
        if max_history cm <? Z.of_nat (length appended)
        then py_slice_from (- max_history cm) appended
        else appended]> (conversations cm).
Proof.
  unfold add_message, get_conversation_history.
  destruct (conversations cm !! session_id) as [l|] eqn:Hl; simpl.
  - rewrite Hl. simpl. destruct (_ <? _); simpl; [|done].
    by rewrite insert_insert_eq.
  - rewrite lookup_insert_eq. simpl. destruct (_ <? _); simpl;
      by rewrite !insert_insert_eq.
Qed.

(** X14: with a limit [max_history] of at least 1, after [add_message]
    the history of the session holds at most [max_history] messages,
    whatever it held before; the message just added is its last one; and
    it is the old history followed by the new message, cut at the front. *)
Theorem add_message_bounded
    (cm : ConversationManager) (session_id : string) (message : ChatMessage) :
  1 <= max_history cm ->
  let old := get_conversation_history cm session_id None in
  let new :=
    get_conversation_history (add_message cm session_id message)
      session_id None in
  Z.of_nat (length new) <= max_history cm /\
  last new = Some message /\
  new = drop (length (old ++ [message]) - Z.to_nat (max_history cm))
             (old ++ [message]).
Proof.
  intros Hmax old new.
  assert (new = drop (length (old ++ [message]) - Z.to_nat (max_history cm))
                     (old ++ [message])) as Hnew.
  { subst new. unfold get_conversation_history at 1.
    rewrite add_message_history, lookup_insert_eq. fold old.
    destruct (Z.ltb_spec (max_history cm) (Z.of_nat (length (old ++ [message]))))
      as [Hlt|Hge].
    - apply py_slice_from_suffix. lia.
    - replace (length (old ++ [message]) - Z.to_nat (max_history cm))%nat
        with 0%nat by lia. done. }
  split; [|split; [|exact Hnew]].
  - rewrite Hnew, length_drop. lia.
  - rewrite Hnew.
    assert (length (old ++ [message]) - Z.to_nat (max_history cm)
            <= length old)%nat as Hle by (rewrite length_app; simpl; lia).
    rewrite drop_app_le by exact Hle. apply last_snoc.
Qed.

Lemma add_message_bounded_witness :
  let m1 := mkChatMessage "user" "one" 1 in
  let m2 := mkChatMessage "assistant" "two" 2 in
  let m3 := mkChatMessage "user" "three" 3 in
  let cm := add_message (add_message (new_conversation_manager 2) "s" m1)
              "s" m2 in
  get_conversation_history (add_message cm "s" m3) "s" None
  = drop (length (get_conversation_history cm "s" None ++ [m3]) - Z.to_nat 2)
         (get_conversation_history cm "s" None ++ [m3]).
Proof.
  intros m1 m2 m3 cm.
  destruct (add_message_bounded cm "s" m3) as (_ & _ & Hnew).
  - vm_compute. discriminate.
  - exact Hnew.
Defined.

(** X15: a manager whose [max_history] is 0 never cuts a history: each
    [add_message] leaves the old history followed by the new message. *)
Theorem add_message_zero_limit
    (cm : ConversationManager) (session_id : string) (message : ChatMessage) :
  max_history cm = 0 ->
  get_conversation_history (add_message cm session_id message) session_id None
  = get_conversation_history cm session_id None ++ [message].
Proof.
  intros Hmax. unfold get_conversation_history at 1.
  rewrite add_message_history, lookup_insert_eq, Hmax.
  by destruct (_ <? _).
Qed.

Lemma add_message_zero_limit_witness :
  let m1 := mkChatMessage "user" "one" 1 in
  let m2 := mkChatMessage "assistant" "two" 2 in
  get_conversation_history
    (add_message (add_message (new_conversation_manager 0) "s" m1) "s" m2)
    "s" None
  = [m1; m2].
Proof.
  intros m1 m2.
  rewrite (add_message_zero_limit
             (add_message (new_conversation_manager 0) "s" m1) "s" m2);
    reflexivity.
Defined.

(** X16: for a session with messages, [get_conversation_history] returns
    them all when the limit is [None] or 0, the last [k] of them (all, if
    there are fewer) for a limit [k] above 0, and for a limit [k] below 0
    all but the first [-k]; for a session it does not know it returns the
    empty list, whatever the limit. *)
Theorem get_conversation_history_limit
    (cm : ConversationManager) (session_id : string)
    (messages : list ChatMessage) (k : Z) :
  conversations cm !! session_id = Some messages ->
  get_conversation_history cm session_id None = messages /\
  get_conversation_history cm session_id (Some 0) = messages /\
  (0 < k ->
   get_conversation_history cm session_id (Some k)
   = drop (length messages - Z.to_nat k) messages /\
   length (get_conversation_history cm session_id (Some k))
   = Nat.min (Z.to_nat k) (length messages)) /\
  (k < 0 ->
   get_conversation_history cm session_id (Some k)
   = drop (Z.to_nat (- k)) messages) /\
  (forall other limit,
     conversations cm !! other = None ->
     get_conversation_history cm other limit = []).
Proof.
  intros Hs. unfold get_conversation_history. rewrite Hs.
  split; [done|]. split; [done|]. split; [|split].
  - intros Hk. destruct (Z.eqb_spec k 0) as [|_]; [lia|].
    rewrite py_slice_from_suffix by done. split; [done|].
    rewrite length_drop. lia.
  - intros Hk. destruct (Z.eqb_spec k 0) as [|_]; [lia|].
    unfold py_slice_from. destruct (Z.ltb_spec (- k) 0); [lia | done].
  - intros other limit Hother. by rewrite Hother.
Qed.

Lemma get_conversation_history_limit_witness :
  let m1 := mkChatMessage "user" "one" 1 in
  let m2 := mkChatMessage "assistant" "two" 2 in
  let cm := add_message (add_message (new_conversation_manager 100) "s" m1)
              "s" m2 in
  get_conversation_history cm "s" (Some 0) = [m1; m2].
Proof.
  intros m1 m2 cm.
  destruct (get_conversation_history_limit cm "s" [m1; m2] 1)
    as (_ & Hzero & _).
  - reflexivity.
  - exact Hzero.
Defined.

(** X17: sessions are independent.  [add_message] and
    [clear_conversation] on one session leave the history of every other
    session as it is; after [clear_conversation] the session has no
    history and is no longer active; after [add_message] it is active. *)
Theorem sessions_independent
    (cm : ConversationManager) (session_id other : string)
    (message : ChatMessage) (limit : option Z) :
  session_id <> other ->
  get_conversation_history (add_message cm session_id message) other limit
  = get_conversation_history cm other limit /\
  get_conversation_history (clear_conversation cm session_id) other limit
  = get_conversation_history cm other limit /\
  get_conversation_history (clear_conversation cm session_id) session_id limit
  = [] /\
  get_active_sessions (clear_conversation cm session_id)
  = get_active_sessions cm ∖ {[session_id]} /\
  get_active_sessions (add_message cm session_id message)
  = {[session_id]} ∪ get_active_sessions cm.
Proof.
  intros Hne. unfold get_conversation_history, get_active_sessions.
  rewrite add_message_history. cbv zeta.
  rewrite lookup_insert_ne by done. split; [done|].
  unfold clear_conversation.
  destruct (conversations cm !! session_id) as [l|] eqn:Hl; simpl.
  - rewrite lookup_delete_ne by done. rewrite lookup_delete_eq.
    rewrite dom_delete_L, dom_insert_L. done.
  - rewrite Hl, dom_insert_L. repeat split; try done.
    apply not_elem_of_dom in Hl. set_solver.
Qed.

Lemma sessions_independent_witness :
  let m1 := mkChatMessage "user" "one" 1 in
  let cm := add_message (new_conversation_manager 100) "a" m1 in
  get_conversation_history (clear_conversation cm "b") "a" None
  = get_conversation_history cm "a" None.
Proof.
  intros m1 cm.
  destruct (sessions_independent cm "b" "a" m1 None) as (_ & Hclear & _).
  - discriminate.
  - exact Hclear.
Defined.

Lemma clear_conversation_max_history (cm : ConversationManager) s :
  max_history (clear_conversation cm s) = max_history cm.
Proof. unfold clear_conversation. by destruct (_ !! _). Qed.

Lemma add_message_max_history (cm : ConversationManager) s m :
  max_history (add_message cm s m) = max_history cm.
Proof. unfold add_message. cbv zeta. by destruct (_ <? _). Qed.

(** X18: invariant of a manager made with a limit of at least 1 and
    driven by [add_message] and [clear_conversation]: the limit stays as
    it was given, and every active session has at least one message and
    at most as many as the limit. *)
Theorem cm_reachable_invariant
    (limit : Z) (cm : ConversationManager) :
  1 <= limit ->
  cm_reachable limit cm ->
  max_history cm = limit /\
  forall session_id messages,
    conversations cm !! session_id = Some messages ->
    messages <> [] /\ Z.of_nat (length messages) <= limit.
Proof.
  intros Hlimit Hcm.
  induction Hcm as [|cm s m Hcm [IHmax IH]|cm s Hcm [IHmax IH]].
  - split; [done|]. intros s l Hl. simpl in Hl.
    by rewrite lookup_empty in Hl.
  - split; [by rewrite add_message_max_history|].
    intros s' l. rewrite add_message_history. cbv zeta.
    destruct (decide (s = s')) as [->|Hne].
    + rewrite lookup_insert_eq. intros [= <-].
      set (appended := get_conversation_history cm s' None ++ [m]).
      assert (length appended <> 0)%nat as Hlen
        by (subst appended; rewrite length_app; simpl; lia).
      destruct (Z.ltb_spec (max_history cm) (Z.of_nat (length appended))).
      * rewrite py_slice_from_suffix by lia.
        split; [|rewrite length_drop; lia].
        intros Hnil. apply (f_equal length) in Hnil.
        rewrite length_drop in Hnil. simpl in Hnil. lia.
      * split; [|lia]. intros Hnil. by rewrite Hnil in Hlen.
    + rewrite lookup_insert_ne by done. apply IH.
  - split; [by rewrite clear_conversation_max_history|].
    intros s' l. unfold clear_conversation.
    destruct (conversations cm !! s) eqn:Hs; simpl; [|apply IH].
    destruct (decide (s = s')) as [->|Hne].
    + by rewrite lookup_delete_eq.
    + rewrite lookup_delete_ne by done. apply IH.
Qed.

Lemma cm_reachable_invariant_witness :
  let m1 := mkChatMessage "user" "one" 1 in
  max_history (clear_conversation
                 (add_message (new_conversation_manager 2) "s" m1) "t") = 2.
Proof.
  intros m1.
  destruct (cm_reachable_invariant 2
              (clear_conversation
                 (add_message (new_conversation_manager 2) "s" m1) "t"))
    as [Hmax _].
  - lia.
  - apply cm_clear, cm_add, cm_new.
  - exact Hmax.
Defined.

(** * The chatbot agent *)

(** ** Strings and slices *)

Lemma string_app_cons (c : ascii) (s t : string) :
  String c s +:+ t = String c (s +:+ t).
Proof. reflexivity. Qed.

Lemma string_app_assoc (s1 s2 s3 : string) :
  (s1 +:+ s2) +:+ s3 = s1 +:+ s2 +:+ s3.
Proof.
  induction s1 as [|c s1 IH]; [done|]. by rewrite !string_app_cons, IH.
Qed.

Lemma str_truthy_nonempty (s : string) : str_truthy s = true <-> s <> "".
Proof. destruct s; simpl; split; done. Qed.

Lemma py_join_cons_cons sep (x y : string) (rest : list string) :
  py_join sep (x :: y :: rest) = x +:+ sep +:+ py_join sep (y :: rest).
Proof. reflexivity. Qed.

(** A joined list that ends with [x], an empty part and [y] ends with
    [x], two separators and [y]. *)
Lemma py_join_tail sep (x y : string) : forall xs : list string,
  exists pre, py_join sep (xs ++ [x; ""; y]) = pre +:+ x +:+ sep +:+ sep +:+ y.
Proof.
  induction xs as [|z xs [pre IH]].
  - by exists "".
  - exists (z +:+ sep +:+ pre).
    destruct xs as [|z' xs]; simpl app in *;
      rewrite py_join_cons_cons, IH, !string_app_assoc; reflexivity.
Qed.

Lemma py_slice_from_neg {A} (start : Z) (l : list A) :
  start < 0 ->
  py_slice_from start l = drop (length l - Z.to_nat (- start)) l.
Proof.
  intros Hstart. unfold py_slice_from.
  destruct (Z.ltb_spec start 0) as [_|]; [|lia]. f_equal. lia.
Qed.

Lemma py_slice_from_snoc {A} (k : Z) (older : list A) (x : A) :
  0 < k ->
  exists older', py_slice_from (- k) (older ++ [x]) = older' ++ [x].
Proof.
  intros Hk. rewrite py_slice_from_suffix by done.
  exists (drop (length (older ++ [x]) - Z.to_nat k) older).
  apply drop_app_le. rewrite length_app. simpl. lia.
Qed.

Lemma add_message_cut (cm : ConversationManager) session_id message :
  1 <= max_history cm ->
  get_conversation_history (add_message cm session_id message) session_id None
  = drop (length (get_conversation_history cm session_id None ++ [message])
          - Z.to_nat (max_history cm))
         (get_conversation_history cm session_id None ++ [message]).
Proof.
  intros Hmax. unfold get_conversation_history at 1.
  rewrite add_message_history, lookup_insert_eq.
  set (appended := get_conversation_history cm session_id None ++ [message]).
  destruct (Z.ltb_spec (max_history cm) (Z.of_nat (length appended))).
  - apply py_slice_from_suffix. lia.
  - by replace (length appended - Z.to_nat (max_history cm))%nat
      with 0%nat by lia.
Qed.

Lemma add_message_snoc (cm : ConversationManager) session_id message :
  1 <= max_history cm ->
  exists older,
    get_conversation_history (add_message cm session_id message)
      session_id None = older ++ [message].
Proof.
  intros Hmax. rewrite add_message_cut by done.
  eexists. apply drop_app_le. rewrite length_app. simpl. lia.
Qed.

(** ** The prompt *)

Lemma build_context_nonempty (history : list ChatMessage) (m : string) :
  history <> [] ->
  _build_user_message_with_context history m
  = py_join newline
      ("对话上下文：" :: List.map context_line (py_slice_from (- 6) history)
         ++ [""; "当前用户消息: " +:+ m]).
Proof.
  intros Hne. destruct history as [|msg history]; [done|].
  unfold _build_user_message_with_context.
  destruct (py_slice_from (- 6) (msg :: history)) as [|r recent] eqn:Hrecent.
  - apply (f_equal length) in Hrecent.
    rewrite py_slice_from_neg, length_drop in Hrecent by lia.
    simpl in Hrecent. lia.
  - cbv zeta. f_equal. rewrite <- !app_assoc. reflexivity.
Qed.

(** X19: the user message built for the gateway is the current message
    alone when there is no history; otherwise only the last six messages
    of the history count, and the text ends with an empty line followed by
    the line of the current message. *)
Theorem build_user_message_context
    (history older recent : list ChatMessage) (current_message : string) :
  _build_user_message_with_context [] current_message = current_message /\
  (length recent = 6%nat ->
   _build_user_message_with_context (older ++ recent) current_message
   = _build_user_message_with_context recent current_message) /\
  (history <> [] ->
   exists pre,
     _build_user_message_with_context history current_message
     = pre +:+ newline +:+ newline +:+ "当前用户消息: " +:+ current_message).
Proof.
  split; [reflexivity|]. split.
  - intros Hlen.
    assert (recent <> []) as Hne by (by destruct recent).
    assert (older ++ recent <> []) as Hne'
      by (intros [_ ->]%app_eq_nil; done).
    rewrite !build_context_nonempty by done.
    rewrite !py_slice_from_neg by lia. do 3 f_equal.
    rewrite length_app, Hlen.
    replace (length older + 6 - Z.to_nat (- -6))%nat with (length older)
      by lia.
    replace (6 - Z.to_nat (- -6))%nat with 0%nat by lia.
    by rewrite drop_app_length.
  - intros Hne. rewrite build_context_nonempty by done.
    assert (exists lines line,
              "对话上下文：" :: List.map context_line
                                   (py_slice_from (- 6) history)
              = lines ++ [line]) as (lines & line & Hlines).
    { destruct (List.map context_line (py_slice_from (- 6) history)) as [|l ls]
        using rev_ind.
      - by exists [], "对话上下文：".
      - exists ("对话上下文：" :: ls), l. done. }
    rewrite app_comm_cons, Hlines, <- app_assoc. simpl app.
    destruct (py_join_tail newline line ("当前用户消息: " +:+ current_message)
                lines) as [pre Hpre].
    exists (pre +:+ line). by rewrite Hpre, string_app_assoc.
Qed.

(** ** The reply *)

Lemma default_response_nonempty name pick user_message history :
  _generate_smart_default_response name pick user_message history <> "".
Proof.
  apply str_truthy_nonempty. unfold _generate_smart_default_response.
  repeat match goal with
         | |- context [if ?b then _ else _] => destruct b
         end;
    try reflexivity.
  by destruct (pick mod 4)%nat as [|[|[|?]]].
Qed.

(** A run of [_generate_response]: it returns, with a reply that is not
    empty, and its events are those of the call of [generate_simple]. *)
Lemma generate_response_run (agent : ChatBotAgent) pick user_message
    session_id t :
  exists reply,
    _generate_response agent pick user_message session_id t
    = (Ok reply,
       match llm_gateway agent with
       | Some gw =>
           snd (generate_simple gw system_prompt
                  (_build_user_message_with_context
                     (get_conversation_history (conversation_manager agent)
                        session_id (Some 10)) user_message)
                  None ∅ t)
       | None => t
       end) /\
    reply <> "".
Proof.
  unfold _generate_response.
  destruct (llm_gateway agent) as [gw|].
  - unfold try_except, bind, ret.
    destruct (generate_simple gw system_prompt _ None ∅ t) as [[r|e] t'];
      simpl.
    + destruct (str_truthy r && str_truthy (py_strip r)) eqn:Hr.
      * eexists. split; [reflexivity|].
        apply andb_true_iff in Hr. destruct Hr as [_ Hr].
        by apply str_truthy_nonempty.
      * eexists. split; [reflexivity | apply default_response_nonempty].
    + eexists. split; [reflexivity | apply default_response_nonempty].
  - eexists. split; [reflexivity | apply default_response_nonempty].
Qed.

(** X20: [_generate_response] never raises and never returns an empty
    reply.  Without a gateway it returns the default reply and calls
    nothing; when the call of the gateway raises, whatever the error, it
    returns the default reply as well. *)
Theorem generate_response_never_raises
    (agent : ChatBotAgent) (pick : nat) (user_message session_id : string)
    (t : list event) :
  let history :=
    get_conversation_history (conversation_manager agent) session_id
      (Some 10) in
  let fallback :=
    _generate_smart_default_response (agent_name agent) pick user_message
      history in
  (exists reply,
     fst (_generate_response agent pick user_message session_id t) = Ok reply /\
     reply <> "") /\
  (llm_gateway agent = None ->
   _generate_response agent pick user_message session_id t
   = (Ok fallback, t)) /\
  (forall gw e t',
     llm_gateway agent = Some gw ->
     generate_simple gw system_prompt
       (_build_user_message_with_context history user_message) None ∅ t
     = (Raise e, t') ->
     _generate_response agent pick user_message session_id t
     = (Ok fallback, t')).
Proof.
  intros history fallback. split; [|split].
  - destruct (generate_response_run agent pick user_message session_id t)
      as (reply & Hrun & Hreply).
    exists reply. by rewrite Hrun.
  - intros Hgw. unfold _generate_response. by rewrite Hgw.
  - intros gw e t' Hgw Hrun. unfold _generate_response.
    rewrite Hgw. unfold try_except, bind. fold history. by rewrite Hrun.
Qed.

(** ** Processing a request *)

Lemma add_message_other (cm : ConversationManager) s other m limit :
  s <> other ->
  get_conversation_history (add_message cm s m) other limit
  = get_conversation_history cm other limit.
Proof.
  intros Hne. unfold get_conversation_history.
  rewrite add_message_history. cbv zeta. by rewrite lookup_insert_ne.
Qed.

(** [str.lstrip] removes a white space character at the head. *)
Lemma py_lstrip_space (w s : string) :
  In w whitespace_chars -> py_lstrip (w +:+ s) = py_lstrip s.
Proof.
  unfold whitespace_chars. intros Hw.
  repeat (destruct Hw as [<-|Hw]; [reflexivity|]). destruct Hw.
Qed.

Lemma py_lstrip_blank (s : string) : blank s -> py_lstrip s = "".
Proof.
  induction 1 as [|w s Hw _ IH]; [done|]. by rewrite py_lstrip_space.
Qed.

(** Nothing is left of a blank string. *)
Lemma py_strip_blank (s : string) : blank s -> py_strip s = "".
Proof. intros Hs. unfold py_strip. by rewrite py_lstrip_blank. Qed.

(** The tests of [py_lstrip] hold of the white space characters only. *)
Lemma is_space1_in (c : ascii) :
  is_space1 c = true -> In (String c "") whitespace_chars.
Proof.
  destruct c as [[] [] [] [] [] [] [] []]; intros H; vm_compute in H;
    first [discriminate H | unfold whitespace_chars; simpl; tauto].
Qed.

Lemma is_space2_in (c1 c2 : ascii) :
  is_space2 c1 c2 = true -> In (utf8_2 c1 c2) whitespace_chars.
Proof.
  unfold is_space2. cbv zeta. rewrite andb_true_iff, orb_true_iff.
  intros [H1 [H2|H2]];
    rewrite (N_of_ascii_eqb _ _ H1), (N_of_ascii_eqb _ _ H2);
    unfold whitespace_chars; simpl; tauto.
Qed.

Lemma is_space3_in (c1 c2 c3 : ascii) :
  is_space3 c1 c2 c3 = true -> In (utf8_3 c1 c2 c3) whitespace_chars.
Proof.
  intros H.
  assert (N_of_ascii c1 = 225 \/ N_of_ascii c1 = 226 \/ N_of_ascii c1 = 227)%N
    as H1.
  { unfold is_space3 in H. cbv zeta in H.
    rewrite !orb_true_iff, !andb_true_iff, !N.eqb_eq in H. tauto. }
  assert (N_of_ascii c2 = 154 \/ N_of_ascii c2 = 128 \/ N_of_ascii c2 = 129)%N
    as H2.
  { unfold is_space3 in H. cbv zeta in H.
    rewrite !orb_true_iff, !andb_true_iff, !N.eqb_eq in H. tauto. }
  assert (c1 = "225" \/ c1 = "226" \/ c1 = "227")%char as Hc1.
  { rewrite <- (ascii_N_embedding c1).
    destruct H1 as [-> | [-> | ->]]; auto. }
  assert (c2 = "154" \/ c2 = "128" \/ c2 = "129")%char as Hc2.
  { rewrite <- (ascii_N_embedding c2).
    destruct H2 as [-> | [-> | ->]]; auto. }
  clear H1 H2.
  destruct Hc1 as [-> | [-> | ->]]; destruct Hc2 as [-> | [-> | ->]];
    try (vm_compute in H; discriminate H);
    destruct c3 as [[] [] [] [] [] [] [] []];
    first [ vm_compute in H; discriminate H
          | unfold whitespace_chars; simpl; tauto ].
Qed.

Lemma string_app_nil_r (s : string) : s +:+ "" = s.
Proof.
  induction s as [|c s IH]; [done|]. by rewrite string_app_cons, IH.
Qed.

Lemma string_rev_app (s1 s2 : string) :
  String.rev_app s1 s2 = String.rev s1 +:+ s2.
Proof.
  unfold String.rev. revert s2.
  induction s1 as [|c s1 IH]; intros s2; simpl; [done|].
  by rewrite (IH (String c s2)), (IH (String c "")), string_app_assoc.
Qed.

Lemma string_rev_cons (c : ascii) (s : string) :
  String.rev (String c s) = String.rev s +:+ String c "".
Proof. unfold String.rev at 1. simpl. apply string_rev_app. Qed.

Lemma string_rev_app_distr (s1 s2 : string) :
  String.rev (s1 +:+ s2) = String.rev s2 +:+ String.rev s1.
Proof.
  induction s1 as [|c s1 IH].
  - change (String.rev "") with "". by rewrite string_app_nil_r.
  - by rewrite string_app_cons, !string_rev_cons, IH, string_app_assoc.
Qed.

Lemma string_rev_involutive (s : string) : String.rev (String.rev s) = s.
Proof.
  induction s as [|c s IH]; [done|].
  by rewrite string_rev_cons, string_rev_app_distr, IH.
Qed.

Lemma blank_app (s1 s2 : string) : blank s1 -> blank s2 -> blank (s1 +:+ s2).
Proof.
  induction 1 as [|w s Hw _ IH]; intros H2; [done|].
  rewrite string_app_assoc. apply blank_space; auto.
Qed.

Lemma blank_char (w : string) : In w whitespace_chars -> blank w.
Proof.
  intros Hw. rewrite <- (string_app_nil_r w).
  apply blank_space; [done | constructor].
Qed.

(** What [str.lstrip] removes is blank. *)
Lemma py_lstrip_split : forall (n : nat) (s : string),
  (String.length s <= n)%nat ->
  exists ws, blank ws /\ s = ws +:+ py_lstrip s.
Proof.
  induction n as [|n IH]; intros s Hlen.
  { destruct s; [|simpl in Hlen; lia]. exists "". split; [constructor | done]. }
  destruct s as [|c1 r1]; [exists ""; split; [constructor | done]|].
  cbn [py_lstrip]. simpl in Hlen.
  destruct (is_space1 c1) eqn:H1.
  { destruct (IH r1) as (ws & Hws & Heq); [lia|].
    exists (String c1 "" +:+ ws). split.
    - apply blank_space; [by apply is_space1_in | done].
    - change (String c1 r1 = String c1 (ws +:+ py_lstrip r1)).
      by rewrite <- Heq. }
  destruct r1 as [|c2 r2]; [exists ""; split; [constructor | done]|].
  simpl in Hlen.
  destruct (is_space2 c1 c2) eqn:H2.
  { destruct (IH r2) as (ws & Hws & Heq); [lia|].
    exists (utf8_2 c1 c2 +:+ ws). split.
    - apply blank_space; [by apply is_space2_in | done].
    - change (String c1 (String c2 r2)
              = String c1 (String c2 (ws +:+ py_lstrip r2))).
      by rewrite <- Heq. }
  destruct r2 as [|c3 r3]; [exists ""; split; [constructor | done]|].
  simpl in Hlen.
  destruct (is_space3 c1 c2 c3) eqn:H3.
  { destruct (IH r3) as (ws & Hws & Heq); [lia|].
    exists (utf8_3 c1 c2 c3 +:+ ws). split.
    - apply blank_space; [by apply is_space3_in | done].
    - change (String c1 (String c2 (String c3 r3))
              = String c1 (String c2 (String c3 (ws +:+ py_lstrip r3)))).
      by rewrite <- Heq. }
  exists "". split; [constructor | done].
Qed.

(** What [py_lstrip_rev] removes is blank when read backwards. *)
Lemma py_lstrip_rev_split : forall (n : nat) (s : string),
  (String.length s <= n)%nat ->
  exists p, blank (String.rev p) /\ s = p +:+ py_lstrip_rev s.
Proof.
  induction n as [|n IH]; intros s Hlen.
  { destruct s; [|simpl in Hlen; lia]. exists "". split; [constructor | done]. }
  destruct s as [|c1 r1]; [exists ""; split; [constructor | done]|].
  cbn [py_lstrip_rev]. simpl in Hlen.
  destruct (is_space1 c1) eqn:H1.
  { destruct (IH r1) as (p & Hp & Heq); [lia|].
    exists (String c1 p). split.
    - rewrite string_rev_cons. apply blank_app; [done|].
      apply blank_char. by apply is_space1_in.
    - change (String c1 r1 = String c1 (p +:+ py_lstrip_rev r1)).
      by rewrite <- Heq. }
  destruct r1 as [|c2 r2]; [exists ""; split; [constructor | done]|].
  simpl in Hlen.
  destruct (is_space2 c2 c1) eqn:H2.
  { destruct (IH r2) as (p & Hp & Heq); [lia|].
    exists (String c1 (String c2 p)). split.
    - rewrite !string_rev_cons, string_app_assoc. apply blank_app; [done|].
      apply blank_char. by apply is_space2_in.
    - change (String c1 (String c2 r2)
              = String c1 (String c2 (p +:+ py_lstrip_rev r2))).
      by rewrite <- Heq. }
  destruct r2 as [|c3 r3]; [exists ""; split; [constructor | done]|].
  simpl in Hlen.
  destruct (is_space3 c3 c2 c1) eqn:H3.
  { destruct (IH r3) as (p & Hp & Heq); [lia|].
    exists (String c1 (String c2 (String c3 p))). split.
    - rewrite !string_rev_cons, !string_app_assoc. apply blank_app; [done|].
      apply blank_char. by apply is_space3_in.
    - change (String c1 (String c2 (String c3 r3))
              = String c1 (String c2 (String c3 (p +:+ py_lstrip_rev r3)))).
      by rewrite <- Heq. }
  exists "". split; [constructor | done].
Qed.

(** The strings of which [str.strip] leaves nothing are the blank ones. *)
Lemma py_strip_empty_iff (s : string) : py_strip s = "" <-> blank s.
Proof.
  split; [|apply py_strip_blank].
  unfold py_strip. intros Hs.
  apply (f_equal String.rev) in Hs. rewrite string_rev_involutive in Hs.
  change (String.rev "") with "" in Hs.
  destruct (py_lstrip_split (String.length s) s) as (ws & Hws & Heq); [lia|].
  destruct (py_lstrip_rev_split (String.length (String.rev (py_lstrip s)))
              (String.rev (py_lstrip s))) as (p & Hp & Hrev); [lia|].
  rewrite Hs, string_app_nil_r in Hrev. rewrite <- Hrev in Hp.
  rewrite string_rev_involutive in Hp.
  rewrite Heq. by apply blank_app.
Qed.

(** X21: a request whose message is missing, or is blank, that is empty
    or made of the white space characters of Unicode only, is refused
    with the error "用户消息不能为空" and the session id of the request,
    "default" without one: nothing is stored in the conversation and the
    gateway is not called. *)
Theorem process_blank_message
    (isoformat : Z -> string) (agent : ChatBotAgent) (t_user t_reply t_done : Z) (pick : nat)
    (input_data : ProcessInput) (t : list event) :
  match in_message input_data with
  | Some user_message => blank user_message
  | None => True
  end ->
  process isoformat agent t_user t_reply t_done pick input_data t
  = (Ok (error_result "用户消息不能为空"
           (default "default" (in_session_id input_data)), agent), t).
Proof.
  intros Hblank.
  assert (py_strip (default "" (in_message input_data)) = "") as Hstrip.
  { destruct (in_message input_data) as [user_message|].
    - by apply py_strip_blank.
    - reflexivity. }
  unfold process, try_except. by rewrite Hstrip.
Qed.

(** X22: a request with a message that is not blank succeeds.  The reply
    is not empty; with a history limit of at least 2 the history of the
    session ends with the user's message followed by the reply; the
    reported [conversation_length] is the length of that history, at most
    the limit; and the other sessions are as they were. *)
Theorem process_success
    (isoformat : Z -> string) (agent : ChatBotAgent) (t_user t_reply t_done : Z) (pick : nat)
    (input_data : ProcessInput) (t : list event) (user_message : string) :
  in_message input_data = Some user_message ->
  py_strip user_message <> "" ->
  2 <= max_history (conversation_manager agent) ->
  let session_id := default "default" (in_session_id input_data) in
  exists reply older result agent',
    fst (process isoformat agent t_user t_reply t_done pick input_data t)
    = Ok (result, agent') /\
    reply <> "" /\
    result !! "status" = Some (VStr "success") /\
    result !! "response" = Some (VStr reply) /\
    result !! "session_id" = Some (VStr session_id) /\
    get_conversation_history (conversation_manager agent') session_id None
    = older ++ [mkChatMessage "user" user_message t_user;
                mkChatMessage "assistant" reply t_reply] /\
    result !! "conversation_length"
    = Some (VInt (Z.of_nat (length older + 2))) /\
    Z.of_nat (length older + 2) <= max_history (conversation_manager agent) /\
    forall other limit,
      other <> session_id ->
      get_conversation_history (conversation_manager agent') other limit
      = get_conversation_history (conversation_manager agent) other limit.
Proof.
  intros Hmsg Hstrip Hmax session_id.
  set (cm := conversation_manager agent) in *.
  set (u := mkChatMessage "user" user_message t_user).
  set (cm1 := add_message cm session_id u).
  set (agent1 := mkChatBotAgent (agent_name agent) cm1 (llm_gateway agent)).
  destruct (generate_response_run agent1 pick user_message session_id t)
    as (reply & Hrun & Hreply).
  set (a := mkChatMessage "assistant" reply t_reply).
  destruct (add_message_snoc cm session_id u ltac:(lia)) as [older1 Hh1].
  fold cm1 in Hh1.
  assert (max_history cm1 = max_history cm) as Hmax1
    by apply add_message_max_history.
  assert (get_conversation_history (add_message cm1 session_id a)
            session_id None
          = drop (length older1 + 2 - Z.to_nat (max_history cm)) older1
            ++ [u; a]) as Hh2.
  { rewrite add_message_cut by lia. rewrite Hh1, Hmax1, <- app_assoc.
    simpl app. rewrite length_app. simpl length.
    apply drop_app_le. lia. }
  exists reply,
    (drop (length older1 + 2 - Z.to_nat (max_history cm)) older1),
    (<["conversation_length" :=
         VInt (Z.of_nat (length (get_conversation_history
                                   (add_message cm1 session_id a)
                                   session_id None)))]>
     (<["timestamp" := VStr (isoformat t_done)]>
     (<["session_id" := VStr session_id]>
     (<["response" := VStr reply]>
     {["status" := VStr "success"]})))),
    (mkChatBotAgent (agent_name agent) (add_message cm1 session_id a)
       (llm_gateway agent)).
  split; [|split; [exact Hreply|]].
  - unfold process, try_except, bind, ret. rewrite Hmsg.
    change (default "" (Some user_message)) with user_message.
    apply str_truthy_nonempty in Hstrip. rewrite Hstrip.
    change (negb true) with false. cbv beta iota.
    unfold agent1, cm1, u, cm, session_id in Hrun. by rewrite Hrun.
  - split; [by rewrite !lookup_insert_ne by done|].
    split; [by rewrite !lookup_insert_ne, lookup_insert_eq by done|].
    split; [by rewrite !lookup_insert_ne, lookup_insert_eq by done|].
    split; [exact Hh2|].
    split.
    { rewrite lookup_insert_eq, Hh2, length_app. simpl length. done. }
    split.
    { rewrite length_drop. lia. }
    intros other limit Hother. simpl.
    assert (session_id <> other) as Hne by (intros Heq; by apply Hother).
    unfold cm1. by rewrite !add_message_other by exact Hne.
Qed.

Lemma process_success_witness :
  exists reply older result agent',
    fst (process (fun z => pretty z)
           (inject_dependencies new_chatbot_agent (Some mock_gateway))
           1 2 3 0 (mkProcessInput (Some "hello") None) [])
    = Ok (result, agent') /\
    reply <> "" /\
    get_conversation_history (conversation_manager agent') "default" None
    = older ++ [mkChatMessage "user" "hello" 1;
                mkChatMessage "assistant" reply 2].
Proof.
  destruct (process_success (fun z => pretty z)
              (inject_dependencies new_chatbot_agent (Some mock_gateway))
              1 2 3 0 (mkProcessInput (Some "hello") None) [] "hello")
    as (reply & older & result & agent' & Hrun & Hreply & _ & _ & _ & Hh & _).
  - reflexivity.
  - vm_compute. discriminate.
  - vm_compute. discriminate.
  - exists reply, older, result, agent'. repeat split; assumption.
Defined.

Lemma process_blank_message_witness :
  let user_message :=
    " " +:+ String "009" "" +:+ utf8_3 "227" "128" "128"
    +:+ utf8_2 "194" "160" +:+ String "010" "" in
  process (fun z => pretty z)
    (inject_dependencies new_chatbot_agent (Some mock_gateway))
    1 2 3 0 (mkProcessInput (Some user_message) (Some "s1")) []
  = (Ok (error_result "用户消息不能为空" "s1",
         inject_dependencies new_chatbot_agent (Some mock_gateway)), []).
Proof.
  intros user_message.
  apply (process_blank_message (fun z => pretty z)
           (inject_dependencies new_chatbot_agent (Some mock_gateway))
           1 2 3 0 (mkProcessInput (Some user_message) (Some "s1")) []).
  cbn [in_message]. unfold user_message.
  apply (blank_space " "); [unfold whitespace_chars; simpl; tauto|].
  apply (blank_space (String "009" ""));
    [unfold whitespace_chars; simpl; tauto|].
  apply (blank_space (utf8_3 "227" "128" "128"));
    [unfold whitespace_chars; simpl; tauto|].
  apply (blank_space (utf8_2 "194" "160"));
    [unfold whitespace_chars; simpl; tauto|].
  apply (blank_space (String "010" "") "");
    [unfold whitespace_chars; simpl; tauto|].
  apply blank_empty.
Defined.

(** ** What the gateway is asked *)

Lemma generate_first_call (gw : LLMGateway) msgs provider rc kw t a n :
  select_provider gw provider = Ok a ->
  effective_retry_count gw rc = VInt n ->
  1 <= n ->
  exists t',
    snd (generate gw msgs provider rc kw t)
    = t ++ EvGenerate (get_provider_name a) msgs kw :: t'.
Proof.
  intros Hsel Heff Hn. rewrite (generate_trace _ _ _ _ _ _ _ _ Hsel Heff).
  destruct (Z.to_nat n) as [|todo] eqn:Htodo; [lia|].
  destruct (provider_generate a (invocations (get_provider_name a) t) msgs kw)
    as [r|e] eqn:Hfirst.
  - rewrite (retry_loop_turn_return _ _ _ _ _ _ _ _ _ _ Hfirst). by exists [].
  - rewrite (retry_loop_turn_raise _ _ _ _ _ _ _ _ _ _ Hfirst).
    destruct (0 =? n - 1); [by exists []|].
    destruct (retry_loop_shape a msgs kw n (retry_delay_of gw) todo (0 + 1)
                (Some e)
                (t ++ attempt_events (get_provider_name a) msgs kw
                        (retry_delay_of gw) 0 1)) as (m & _ & Hrun).
    rewrite Hrun. eexists. by rewrite <- app_assoc.
Qed.

Lemma py_slice_from_neg_snoc {A} (start : Z) (older : list A) (x : A) :
  start < 0 ->
  exists older', py_slice_from start (older ++ [x]) = older' ++ [x].
Proof.
  intros Hstart. rewrite py_slice_from_neg by done.
  exists (drop (length (older ++ [x]) - Z.to_nat (- start)) older).
  apply drop_app_le. rewrite length_app. simpl. lia.
Qed.

(** X23: when [process] turns to the gateway, the user's message is in the
    history already.  With a default provider that resolves and a retry
    count of at least 1, the first thing a request does is to invoke the
    adapter with the system prompt and one user message, and the text of
    that message ends with the context line of the user's message, an
    empty line, and the same message again as the current one. *)
Theorem process_prompt
    (isoformat : Z -> string) (agent : ChatBotAgent)
    (t_user t_reply t_done : Z) (pick : nat) (input_data : ProcessInput)
    (t : list event) (user_message : string) (gw : LLMGateway)
    (a : LLMProvider) (n : Z) :
  in_message input_data = Some user_message ->
  py_strip user_message <> "" ->
  1 <= max_history (conversation_manager agent) ->
  llm_gateway agent = Some gw ->
  select_provider gw None = Ok a ->
  effective_retry_count gw VNone = VInt n ->
  1 <= n ->
  exists pre prompt t',
    snd (process isoformat agent t_user t_reply t_done pick input_data t)
    = t ++ EvGenerate (get_provider_name a)
             [mkLLMMessage "system" system_prompt;
              mkLLMMessage "user" prompt] ∅ :: t' /\
    prompt = pre +:+ "用户: " +:+ user_message +:+ newline +:+ newline +:+
             "当前用户消息: " +:+ user_message.
Proof.
  intros Hmsg Hstrip Hmax Hgw Hsel Heff Hn.
  set (session_id := default "default" (in_session_id input_data)).
  set (u := mkChatMessage "user" user_message t_user).
  set (cm1 := add_message (conversation_manager agent) session_id u).
  set (agent1 := mkChatBotAgent (agent_name agent) cm1 (llm_gateway agent)).
  set (history := get_conversation_history cm1 session_id (Some 10)).
  set (prompt := _build_user_message_with_context history user_message).
  (* the history handed to the prompt ends with the user's message *)
  assert (exists older, history = older ++ [u]) as [older Hhistory].
  { destruct (add_message_snoc (conversation_manager agent) session_id u Hmax)
      as [older1 Hh1].
    fold cm1 in Hh1. subst history.
    unfold get_conversation_history in *.
    destruct (conversations cm1 !! session_id) as [l|]; [|by destruct older1].
    subst l. change (10 =? 0) with false. cbv iota.
    apply py_slice_from_neg_snoc. lia. }
  assert (exists pre,
            prompt = pre +:+ "用户: " +:+ user_message +:+ newline +:+ newline
                     +:+ "当前用户消息: " +:+ user_message) as [pre Hprompt].
  { subst prompt. rewrite build_context_nonempty
      by (rewrite Hhistory; by destruct older).
    rewrite Hhistory.
    destruct (py_slice_from_neg_snoc (-6) older u ltac:(lia))
      as [recent Hrecent].
    rewrite Hrecent, map_app. simpl map.
    rewrite <- app_assoc. simpl app. rewrite app_comm_cons.
    destruct (py_join_tail newline (context_line u)
                ("当前用户消息: " +:+ user_message)
                ("对话上下文：" :: List.map context_line recent)) as [pre Hpre].
    exists pre. rewrite Hpre. reflexivity. }
  (* the events of the request are those of the call of [generate] *)
  assert (snd (process isoformat agent t_user t_reply t_done pick input_data t)
          = snd (generate gw (simple_messages system_prompt prompt) None VNone
                   ∅ t)) as Htrace.
  { destruct (generate_response_run agent1 pick user_message session_id t)
      as (reply & Hrun & _).
    unfold process, try_except, bind, ret. rewrite Hmsg.
    change (default "" (Some user_message)) with user_message.
    apply str_truthy_nonempty in Hstrip. rewrite Hstrip.
    change (negb true) with false. cbv beta iota.
    unfold agent1, cm1, u, session_id in Hrun. rewrite Hrun. simpl.
    rewrite Hgw. unfold generate_simple.
    rewrite bool_decide_eq_false_2
      by (rewrite !lookup_empty; intros [[? [=]]|[? [=]]]).
    rewrite lookup_empty, delete_empty. unfold bind, ret.
    subst prompt history cm1 u session_id.
    by destruct (generate gw _ None VNone ∅ t) as [[r|e] t']. }
  destruct (generate_first_call gw (simple_messages system_prompt prompt) None
              VNone ∅ t a n Hsel Heff Hn) as [t' Hfirst].
  exists pre, prompt, t'. split; [|exact Hprompt].
  by rewrite Htrace, Hfirst.
Qed.

Lemma process_prompt_witness :
  exists pre prompt t',
    snd (process (fun z => pretty z)
           (inject_dependencies new_chatbot_agent (Some mock_gateway))
           1 2 3 0 (mkProcessInput (Some "hello") None) [])
    = [] ++ EvGenerate "mock"
              [mkLLMMessage "system" system_prompt;
               mkLLMMessage "user" prompt] ∅ :: t' /\
    prompt = pre +:+ "用户: " +:+ "hello" +:+ newline +:+ newline +:+
             "当前用户消息: " +:+ "hello".
Proof.
  apply (process_prompt (fun z => pretty z)
           (inject_dependencies new_chatbot_agent (Some mock_gateway))
           1 2 3 0 (mkProcessInput (Some "hello") None) [] "hello"
           mock_gateway (MockLLMProvider ∅) 3).
  - reflexivity.
  - vm_compute. discriminate.
  - vm_compute. discriminate.
  - reflexivity.
  - reflexivity.
  - reflexivity.
  - lia.
Defined.
